(** * Final_project.ipynb: proposal generation pipeline

    A shallow embedding of the notebook [Final_project.ipynb]: the template
    generator [create_synthetic_proposal], the two-stage dataset split, the
    tokenization and collation of the targets, the control flow of the
    guarded cells, the training and validation loops and the relevance
    score.  Python strings are [string]s (UTF-8 bytes), Python integers are
    [Z], Python lists are [list]s, and a Python expression that may raise is
    a value of [result]. *)

From Stdlib Require Import String Ascii List ZArith QArith Qround Bool Lia
  Permutation PeanoNat.
Import ListNotations.

Local Open Scope list_scope.
Local Open Scope string_scope.

(** ** Python exceptions and results *)

(** The exceptions the notebook can meet.  [PyException cls msg] stands for
    an instance of any class derived from [Exception] other than the ones
    listed; [KeyboardInterrupt] and [SystemExit] derive from [BaseException]
    only. *)
Inductive PyExc : Type :=
| ZeroDivisionError (msg : string)
| ValueError (msg : string)
| IndexError (msg : string)
| PyException (cls msg : string)
| KeyboardInterrupt
| SystemExit (arg : string).

(** [isinstance(e, Exception)] *)
Definition isinstance_Exception (e : PyExc) : bool :=
  match e with
  | KeyboardInterrupt | SystemExit _ => false
  | _ => true
  end.

(** [str(e)] as it is interpolated by an f-string. *)
Definition str_exc (e : PyExc) : string :=
  match e with
  | ZeroDivisionError msg | ValueError msg | IndexError msg => msg
  | PyException _ msg => msg
  | KeyboardInterrupt => ""
  | SystemExit arg => arg
  end.

Inductive result (A : Type) : Type :=
| Ok (a : A)
| Raise (e : PyExc).
Arguments Ok {A} a.
Arguments Raise {A} e.

Definition rbind {A B : Type} (r : result A) (k : A -> result B) : result B :=
  match r with
  | Ok a => k a
  | Raise e => Raise e
  end.

Notation "x <-? r ;; k" := (rbind r (fun x => k))
  (at level 61, r at next level, right associativity).

(** ** Strings *)

Module Str.

(** The newline character of the f-string escapes. *)
Definition nl : string := String (ascii_of_nat 10) EmptyString.

(** [m in s] on Python strings: [m] starts at some offset of [s]. *)
Fixpoint contains (m s : string) : bool :=
  prefix m s ||
  match s with
  | EmptyString => false
  | String _ s' => contains m s'
  end.

(** The offsets of [s], counted from [i], at which [m] starts. *)
Fixpoint occurrences_from (i : nat) (m s : string) : list nat :=
  ((if prefix m s then [i] else []) ++
   match s with
   | EmptyString => []
   | String _ s' => occurrences_from (S i) m s'
   end)%list.

Definition occurrences (m s : string) : list nat := occurrences_from 0 m s.

(** [c] does not occur in [m]. *)
Fixpoint lacks (c : ascii) (m : string) : bool :=
  match m with
  | EmptyString => true
  | String x m' => negb (Ascii.eqb x c) && lacks c m'
  end.

End Str.

(** ** Cell 3: the template generator *)

Definition create_synthetic_proposal (sentence : string) (label : Z) : string :=
  let sentiment := if (label =? 1)%Z then "positive" else "negative" in
  let problem := "Analyze sentiment in short texts like: '" ++ sentence ++ "'" in
  let hypothesis :=
    "The " ++ sentiment ++ " sentiment can be detected using contextual embeddings." in
  let methodology :=
    "Use a transformer-based model with fine-tuning on short-text datasets." in
  "Problem: " ++ problem ++ Str.nl ++ "Hypothesis: " ++ hypothesis ++ Str.nl
    ++ "Methodology: " ++ methodology.

(** One row of the corpus, and the batched [preprocess_data]. *)
Record Sst2Example : Type := { sentence : string; label : Z }.
Record TextPair : Type := { input_text : string; target_text : string }.

Definition preprocess_data (examples : list Sst2Example) : list TextPair :=
  map (fun ex =>
         {| input_text :=
              "Propose a method for sentiment analysis of ambiguous short texts: "
                ++ sentence ex;
            target_text := create_synthetic_proposal (sentence ex) (label ex) |})
      examples.

(** A string has the three section markers, each exactly once, in the order
    Problem, Hypothesis, Methodology. *)
Definition three_sections (out : string) : bool :=
  match Str.occurrences "Problem:" out,
        Str.occurrences "Hypothesis:" out,
        Str.occurrences "Methodology:" out with
  | [p], [h], [m] => (p <? h)%nat && (h <? m)%nat
  | _, _, _ => false
  end.

(** The fixed text of the template around the quoted sentence. *)
Definition template_head : string :=
  "Problem: Analyze sentiment in short texts like: ".

Definition template_tail (label : Z) : string :=
  Str.nl ++ "Hypothesis: The "
    ++ (if (label =? 1)%Z then "positive" else "negative")
    ++ " sentiment can be detected using contextual embeddings."
    ++ Str.nl
    ++ "Methodology: Use a transformer-based model with fine-tuning on short-text datasets.".

(** ** Cell 4: the two-stage split

    [Dataset.train_test_split] is a method of the [datasets] library; the
    model follows the library for the arguments the notebook passes (a
    float [test_size], no [train_size], shuffling on, an integer [seed]).
    The shuffle is NumPy's [default_rng(seed).permutation(n)], taken here as
    the function [permutation] of the seed and the number of rows.  The
    product [test_size * n_samples] is computed on doubles by the library;
    for the two literals [0.2] and [0.5] and every row count below [2^50]
    its ceiling is the ceiling of the exact product, which is what the model
    computes.  On a dataset without rows the library returns at once, with
    the dataset as both parts.  The library's messages name the sizes; the
    model keeps their last words. *)
Section Split.

Context {Row : Type}.
Variable permutation : Z -> nat -> list nat.

(** [Dataset.select(indices)]: the rows at [indices], in that order. *)
Fixpoint select (indices : list nat) (ds : list Row) : result (list Row) :=
  match indices with
  | [] => Ok []
  | i :: rest =>
      match nth_error ds i with
      | None => Raise (IndexError "index out of range")
      | Some r => rows <-? select rest ds ;; Ok (r :: rows)
      end
  end%list.

Record DatasetDict : Type := { dd_train : list Row; dd_test : list Row }.

Definition train_test_split (test_size : Q) (seed : Z) (ds : list Row)
  : result DatasetDict :=
  let n_samples := length ds in
  if (n_samples =? 0)%nat then Ok {| dd_train := ds; dd_test := ds |}
  else if Qle_bool test_size 0 || Qle_bool 1 test_size then
    Raise (ValueError "test_size should be in the (0, 1) range")
  else
    let n_test :=
      Z.to_nat (Qceiling (test_size * inject_Z (Z.of_nat n_samples))) in
    let n_train := (n_samples - n_test)%nat in
    if (n_train =? 0)%nat then
      Raise (ValueError "the resulting train set will be empty")
    else
      let perm := permutation seed n_samples in
      let test_indices := firstn n_test perm in
      let train_indices := firstn n_train (skipn n_test perm) in
      train <-? select train_indices ds ;;
      test <-? select test_indices ds ;;
      Ok {| dd_train := train; dd_test := test |}.

Record Splits : Type :=
  { train_dataset : list Row; val_dataset : list Row; test_dataset : list Row }.

(** Lines 91 to 96 of the notebook. *)
Definition split_cell (train_data : list Row) : result Splits :=
  train_val_data <-? train_test_split 0.2 42 train_data ;;
  val_test_data <-? train_test_split 0.5 42 (dd_test train_val_data) ;;
  Ok {| train_dataset := dd_train train_val_data;
        val_dataset := dd_train val_test_data;
        test_dataset := dd_test val_test_data |}.

(** The rows of [ds] at the indices of [l] that are in range. *)
Definition rows_at (l : list nat) (ds : list Row) : list Row :=
  flat_map (fun i => match nth_error ds i with
                     | Some r => [r]
                     | None => []
                     end%list) l.

End Split.

Arguments DatasetDict Row : clear implicits.
Arguments Splits Row : clear implicits.

(** ** Cell 6: tokenization, and the collator of cell 7

    [T5Tokenizer] and [DataCollatorForSeq2Seq] belong to the [transformers]
    library.  The SentencePiece segmentation is the field [encode_pieces];
    the rest follows the library for the arguments of the notebook.  With
    [truncation=True] the pieces and the end-of-sequence id together may
    take [max_length] places: the pieces in excess are removed from the
    right, unless all of them would have to go, in which case the library
    removes none.  Then the end-of-sequence id is appended, and
    [padding="max_length"] fills up to [max_length] with [pad_token_id] and
    marks the filling with [0] in the attention mask. *)
Record Tokenizer : Type :=
  { encode_pieces : string -> list Z;
    pad_token_id : Z;
    eos_token_id : Z }.

Record BatchEncoding : Type :=
  { input_ids : list Z; attention_mask : list Z }.

Definition tokenizer_call (tokenizer : Tokenizer) (text : string) (max_length : nat)
  : BatchEncoding :=
  let pieces := encode_pieces tokenizer text in
  let num_tokens_to_remove := (length pieces + 1 - max_length)%nat in
  let kept :=
    if (0 <? num_tokens_to_remove)%nat
       && (num_tokens_to_remove <? length pieces)%nat
    then firstn (length pieces - num_tokens_to_remove) pieces
    else pieces in
  let ids := (kept ++ [eos_token_id tokenizer])%list in
  let difference := (max_length - length ids)%nat in
  {| input_ids := (ids ++ repeat (pad_token_id tokenizer) difference)%list;
     attention_mask := (repeat 1%Z (length ids) ++ repeat 0%Z difference)%list |}.

Record Features : Type :=
  { f_input_ids : list Z; f_attention_mask : list Z; labels : list Z }.

Definition tokenize_function (tokenizer : Tokenizer) (examples : list TextPair)
  : list Features :=
  map (fun ex =>
         let inputs := tokenizer_call tokenizer (input_text ex) 128 in
         let targets := tokenizer_call tokenizer (target_text ex) 256 in
         {| f_input_ids := input_ids inputs;
            f_attention_mask := attention_mask inputs;
            labels := input_ids targets |})
      examples.

(** [DataCollatorForSeq2Seq(tokenizer, model=model)]: the labels of a batch
    are filled up to the longest label sequence of the batch with
    [label_pad_token_id], the inputs up to the longest input with the
    tokenizer's padding.  The library stacks the rows into one tensor for
    each key, and adds the decoder inputs it derives from the labels; the
    model keeps the padded rows of the three keys the loops read, as a
    list, for a batch of one row or more (the loaders pass no other). *)
Definition label_pad_token_id : Z := -100.

Definition data_collator (tokenizer : Tokenizer) (features : list Features)
  : list Features :=
  let max_label_length := list_max (map (fun f => length (labels f)) features) in
  let max_length := list_max (map (fun f => length (f_input_ids f)) features) in
  map (fun f =>
         let remainder :=
           repeat label_pad_token_id (max_label_length - length (labels f)) in
         let difference := (max_length - length (f_input_ids f))%nat in
         {| f_input_ids :=
              (f_input_ids f ++ repeat (pad_token_id tokenizer) difference)%list;
            f_attention_mask := (f_attention_mask f ++ repeat 0%Z difference)%list;
            labels := (labels f ++ remainder)%list |})
      features.

(** The loss of [T5ForConditionalGeneration] is
    [CrossEntropyLoss(ignore_index=-100)]: a target position takes part in
    the loss unless its label is [ignore_index]. *)
Definition ignore_index : Z := -100.

Definition counted_in_loss (label : Z) : bool := negb (label =? ignore_index)%Z.

(** The positions of a tokenized target that are padding. *)
Definition is_padding_position (targets : BatchEncoding) (i : nat) : bool :=
  match nth_error (attention_mask targets) i with
  | Some m => (m =? 0)%Z
  | None => false
  end.

(** ** The cells as a program: printing and exceptions

    A statement is a function from the text printed so far to the text
    printed after it and its result. *)
Module Py.

Definition M (A : Type) : Type := list string -> list string * result A.

Definition ret {A : Type} (a : A) : M A := fun out => (out, Ok a).

Definition bind {A B : Type} (c : M A) (k : A -> M B) : M B :=
  fun out =>
    match c out with
    | (out', Ok a) => k a out'
    | (out', Raise e) => (out', Raise e)
    end.

Definition print (line : string) : M unit :=
  fun out => ((out ++ [line])%list, Ok tt).

Definition raise {A : Type} (e : PyExc) : M A := fun out => (out, Raise e).

(** [try: body / except Exception as e: handler e] *)
Definition try_except_Exception {A : Type} (body : M A) (handler : PyExc -> M A)
  : M A :=
  fun out =>
    match body out with
    | (out', Ok a) => (out', Ok a)
    | (out', Raise e) =>
        if isinstance_Exception e then handler e out' else (out', Raise e)
    end.

(** The exit status of the interpreter when the cells are run as a script,
    as a shell sees it: 0 at the end of the script; 1 for a [SystemExit]
    whose argument is a string, which is written to the standard error; 130
    for a keyboard interrupt, which ends the process by its signal; 1 for
    any other uncaught exception, after its traceback. *)
Definition exit_status {A : Type} (r : result A) : Z :=
  match r with
  | Ok _ => 0
  | Raise (SystemExit _) => 1
  | Raise KeyboardInterrupt => 130
  | Raise _ => 1
  end.

End Py.

Notation "x <- c ;; k" := (Py.bind c (fun x => k))
  (at level 61, c at next level, right associativity).
Notation "c ;;; k" := (Py.bind c (fun _ => k))
  (at level 61, right associativity).

(** The stages of the notebook outside its [try] statements and inside
    them.  The first ten fields are calls into the libraries; the last two,
    [training_cell] and [evaluation_cell], are cells 7 and 8 as a whole,
    whose loops and scores are modelled apart ([Loop], [Run],
    [Evaluation], [relevance]).  Each stage is a statement of its own: it
    may print, return or raise. *)
Record Library : Type :=
  { RawDataset : Type;
    Data : Type;
    SplitData : Type;
    TokenizerObj : Type;
    Model : Type;
    Tokenized : Type;
    device : string;
    load_dataset : string -> Py.M RawDataset;
    repr_dataset : RawDataset -> string;
    first_row : RawDataset -> string -> Py.M string;
    map_preprocess : RawDataset -> string -> Py.M Data;
    split_and_report : Data -> Py.M SplitData;
    tokenizer_from_pretrained : string -> Py.M TokenizerObj;
    model_from_pretrained : string -> string -> Py.M Model;
    get_peft_model : Model -> Py.M Model;
    map_tokenize : TokenizerObj -> SplitData -> Py.M Tokenized;
    training_cell : Model -> TokenizerObj -> Tokenized -> Py.M Model;
    evaluation_cell : Model -> TokenizerObj -> Tokenized -> Py.M unit }.

Module Notebook.
Section Cells.

Variable lib : Library.

Definition dataset_failed : string :=
  "Dataset loading failed. Please check Hugging Face access or try 'rotten_tomatoes' dataset.".
Definition preprocessing_failed : string :=
  "Preprocessing failed. Check dataset structure.".
Definition model_failed : string :=
  "Model loading failed. Check Hugging Face access.".
Definition model_name : string := "google/flan-t5-small".

(** The diagnostics of the three handlers. *)
Definition dataset_diagnostic (e : PyExc) : string :=
  "Error loading dataset: " ++ str_exc e.
Definition preprocessing_diagnostic (e : PyExc) : string :=
  "Error in preprocessing: " ++ str_exc e.
Definition model_diagnostic (e : PyExc) : string :=
  "Error loading model/tokenizer: " ++ str_exc e.

(** The three guarded blocks. *)
Definition try_load_dataset : Py.M (RawDataset lib) :=
  Py.try_except_Exception
    (dataset <- load_dataset lib "stanfordnlp/sst2" ;;
     Py.print ("Dataset loaded: " ++ repr_dataset lib dataset) ;;;
     Py.ret dataset)
    (fun e =>
       Py.print (dataset_diagnostic e) ;;;
       Py.raise (SystemExit dataset_failed)).

Definition try_preprocess (dataset : RawDataset lib) : Py.M (Data lib * Data lib) :=
  Py.try_except_Exception
    (train_data <- map_preprocess lib dataset "train" ;;
     validation_data <- map_preprocess lib dataset "validation" ;;
     Py.ret (train_data, validation_data))
    (fun e =>
       Py.print (preprocessing_diagnostic e) ;;;
       Py.raise (SystemExit preprocessing_failed)).

Definition try_load_model : Py.M (TokenizerObj lib * Model lib) :=
  Py.try_except_Exception
    (tokenizer <- tokenizer_from_pretrained lib model_name ;;
     model <- model_from_pretrained lib model_name (device lib) ;;
     Py.ret (tokenizer, model))
    (fun e =>
       Py.print (model_diagnostic e) ;;;
       Py.raise (SystemExit model_failed)).

(** The notebook, statement after statement: [upto_x] is the notebook up
    to, and without, the stage [x], and returns the variables the rest
    uses. *)
Definition upto_load_dataset : Py.M unit :=
  Py.print ("Using device: " ++ device lib).

Definition upto_first_row : Py.M (RawDataset lib) :=
  upto_load_dataset ;;; try_load_dataset.

Definition upto_preprocess : Py.M (RawDataset lib) :=
  dataset <- upto_first_row ;;
  row <- first_row lib dataset "train" ;;
  Py.print ("Sample training data: " ++ row) ;;;
  Py.ret dataset.

Definition upto_split : Py.M (Data lib) :=
  dataset <- upto_preprocess ;;
  data <- try_preprocess dataset ;;
  Py.ret (fst data).

Definition upto_load_model : Py.M (SplitData lib) :=
  train_data <- upto_split ;;
  split_and_report lib train_data.

Definition upto_peft : Py.M (SplitData lib * TokenizerObj lib * Model lib) :=
  splits <- upto_load_model ;;
  loaded <- try_load_model ;;
  Py.ret (splits, fst loaded, snd loaded).

Definition upto_tokenize : Py.M (SplitData lib * TokenizerObj lib * Model lib) :=
  vars <- upto_peft ;;
  model <- get_peft_model lib (snd vars) ;;
  Py.ret (fst vars, model).

Definition upto_training : Py.M (Tokenized lib * TokenizerObj lib * Model lib) :=
  vars <- upto_tokenize ;;
  tokenized <- map_tokenize lib (snd (fst vars)) (fst (fst vars)) ;;
  Py.ret (tokenized, snd (fst vars), snd vars).

Definition upto_evaluation : Py.M (Tokenized lib * TokenizerObj lib * Model lib) :=
  vars <- upto_training ;;
  model <- training_cell lib (snd vars) (snd (fst vars)) (fst (fst vars)) ;;
  Py.ret (fst vars, model).

Definition notebook : Py.M unit :=
  vars <- upto_evaluation ;;
  evaluation_cell lib (snd vars) (snd (fst vars)) (fst (fst vars)).

End Cells.
End Notebook.

(** ** Cell 7: the training and validation loops

    The numeric backend is a collaborator with a fixed contract: [forward]
    gives the loss of a batch under the current parameters and mode,
    [backward] adds the gradients of that loss to the stored ones,
    [optimizer_step] updates the optimizer state and the parameters from the
    gradients.  Losses are the backend's floats, with their addition and
    their division by a batch count. *)
Record Backend : Type :=
  { Params : Type;
    OptState : Type;
    Grads : Type;
    Batch : Type;
    Float : Type;
    fzero : Float;
    fadd : Float -> Float -> Float;
    fdiv : Float -> nat -> Float;
    forward : Params -> bool -> Batch -> Float;
    backward : Params -> bool -> Batch -> Grads -> Grads;
    optimizer_step : OptState -> Params -> Grads -> OptState * Params;
    zero_grad : Grads -> Grads }.

Module Loop.
Section Loops.

Variable be : Backend.

Record State : Type :=
  { params : Params be;
    opt_state : OptState be;
    grads : Grads be;
    training : bool;
    total_loss : Float be;
    val_loss : Float be;
    train_losses : list (Float be);
    val_losses : list (Float be) }.

Definition set_training (b : bool) (st : State) : State :=
  {| params := params st; opt_state := opt_state st; grads := grads st;
     training := b;
     total_loss := total_loss st; val_loss := val_loss st;
     train_losses := train_losses st; val_losses := val_losses st |}.

Definition set_total_loss (x : Float be) (st : State) : State :=
  {| params := params st; opt_state := opt_state st; grads := grads st;
     training := training st;
     total_loss := x; val_loss := val_loss st;
     train_losses := train_losses st; val_losses := val_losses st |}.

Definition set_val_loss (x : Float be) (st : State) : State :=
  {| params := params st; opt_state := opt_state st; grads := grads st;
     training := training st;
     total_loss := total_loss st; val_loss := x;
     train_losses := train_losses st; val_losses := val_losses st |}.

(** The body of the training loop, lines 187 to 197. *)
Definition train_batch (st : State) (batch : Batch be) : State :=
  let loss := forward be (params st) (training st) batch in
  let g := backward be (params st) (training st) batch (grads st) in
  let stepped := optimizer_step be (opt_state st) (params st) g in
  {| params := snd stepped; opt_state := fst stepped; grads := zero_grad be g;
     training := training st;
     total_loss := fadd be (total_loss st) loss; val_loss := val_loss st;
     train_losses := train_losses st; val_losses := val_losses st |}.

(** The body of the validation loop, lines 211 to 216. *)
Definition validate_batch (st : State) (batch : Batch be) : State :=
  let loss := forward be (params st) (training st) batch in
  set_val_loss (fadd be (val_loss st) loss) st.

(** [x / len(loader)] *)
Definition average (x : Float be) (n : nat) : result (Float be) :=
  match n with
  | O => Raise (ZeroDivisionError "division by zero")
  | S _ => Ok (fdiv be x n)
  end.

(** Lines 182 to 203: [model.train()], the loop, the recorded average. *)
Definition train_phase (train_loader : list (Batch be)) (st : State)
  : result State :=
  let st1 := set_total_loss (fzero be) (set_training true st) in
  let st2 := fold_left train_batch train_loader st1 in
  avg_train_loss <-? average (total_loss st2) (length train_loader) ;;
  Ok {| params := params st2; opt_state := opt_state st2; grads := grads st2;
        training := training st2;
        total_loss := total_loss st2; val_loss := val_loss st2;
        train_losses := (train_losses st2 ++ [avg_train_loss])%list;
        val_losses := val_losses st2 |}.

(** Lines 207 to 219: [model.eval()], the zeroed sum, the loop. *)
Definition validate_loop (val_loader : list (Batch be)) (st : State) : State :=
  fold_left validate_batch val_loader st.

Definition validate_phase (val_loader : list (Batch be)) (st : State) : State :=
  validate_loop val_loader (set_val_loss (fzero be) (set_training false st)).

(** Lines 221 and 222: the recorded average. *)
Definition record_val_loss (val_loader : list (Batch be)) (st : State)
  : result State :=
  avg_val_loss <-? average (val_loss st) (length val_loader) ;;
  Ok {| params := params st; opt_state := opt_state st; grads := grads st;
        training := training st;
        total_loss := total_loss st; val_loss := val_loss st;
        train_losses := train_losses st;
        val_losses := (val_losses st ++ [avg_val_loss])%list |}.

Definition epoch (train_loader val_loader : list (Batch be)) (st : State)
  : result State :=
  st1 <-? train_phase train_loader st ;;
  record_val_loss val_loader (validate_phase val_loader st1).

Fixpoint epochs (n : nat) (train_loader val_loader : list (Batch be)) (st : State)
  : result State :=
  match n with
  | O => Ok st
  | S n' =>
      st1 <-? epoch train_loader val_loader st ;;
      epochs n' train_loader val_loader st1
  end.

Definition EPOCHS : nat := 5.

(** The sum of the losses of the batches under fixed parameters and mode,
    added to [acc] in the order of the loader. *)
Definition running_loss (p : Params be) (mode : bool) (acc : Float be)
           (loader : list (Batch be)) : Float be :=
  fold_left (fun a batch => fadd be a (forward be p mode batch)) loader acc.

End Loops.
End Loop.

(** ** Cell 8: the relevance score *)

(** Python's [a / b] on integers.  Python returns the double nearest to
    the exact quotient; the model keeps the exact quotient, which that
    double rounds.  0 and 1 are doubles, and rounding keeps the order, so
    what is stated below of the quotient against 0 and 1 holds of the
    double; no statement reads the digits of any other quotient. *)
Definition true_div (a b : Z) : result Q :=
  if (b =? 0)%Z then Raise (ZeroDivisionError "division by zero")
  else Ok (inject_Z a / inject_Z b)%Q.

(** [sum(xs)] *)
Definition py_sum (xs : list Z) : Z := fold_left Z.add xs 0%Z.

Definition has_all_markers (pred : string) : bool :=
  Str.contains "Problem:" pred && Str.contains "Hypothesis:" pred
    && Str.contains "Methodology:" pred.

(** Line 281: the numerator [sum(1 for pred in generated if ...)], and the
    quotient. *)
Definition relevant_count (generated : list string) : Z :=
  py_sum (map (fun _ => 1%Z) (filter has_all_markers generated)).

Definition relevance (generated : list string) : result Q :=
  true_div (relevant_count generated) (Z.of_nat (length generated)).

(** A tokenizer to run the model on: one piece per byte, numbered from 3,
    with T5's ids 0 for padding and 1 for the end of the sequence. *)
Definition byte_tokenizer : Tokenizer :=
  {| encode_pieces :=
       fun text => map (fun c => Z.of_nat (nat_of_ascii c) + 3)%Z
                       (list_ascii_of_string text);
     pad_token_id := 0;
     eos_token_id := 1 |}.

(** The notebook [c] started after the output [out] stops on the exception
    [e], uncaught, with the output [out']; the process ends with a status
    other than 0. *)
Definition aborts (c : Py.M unit) (out out' : list string) (e : PyExc) : Prop :=
  c out = (out', Raise e) /\ Py.exit_status (snd (c out)) <> 0%Z.

(** A library without network access: the dataset cannot be fetched. *)
Definition offline_library : Library :=
  {| RawDataset := unit; Data := unit; SplitData := unit; TokenizerObj := unit;
     Model := unit; Tokenized := unit;
     device := "cpu";
     load_dataset := fun _ => Py.raise (PyException "ConnectionError" "offline");
     repr_dataset := fun _ => "DatasetDict";
     first_row := fun _ _ => Py.ret "row";
     map_preprocess := fun _ _ => Py.ret tt;
     split_and_report := fun _ => Py.ret tt;
     tokenizer_from_pretrained := fun _ => Py.ret tt;
     model_from_pretrained := fun _ _ => Py.ret tt;
     get_peft_model := fun _ => Py.ret tt;
     map_tokenize := fun _ _ => Py.ret tt;
     training_cell := fun _ _ _ => Py.ret tt;
     evaluation_cell := fun _ _ _ => Py.ret tt |}.

(** ** Cell 3 on the columns of a batch

    With [batched=True] the function of [Dataset.map] receives the columns
    of a batch, and returns columns. *)
Record SentenceColumns : Type :=
  { col_sentence : list string; col_label : list Z }.

Record TextColumns : Type :=
  { col_input_text : list string; col_target_text : list string }.

Definition preprocess_data_columns (examples : SentenceColumns) : TextColumns :=
  let inputs :=
    map (fun sentence =>
           "Propose a method for sentiment analysis of ambiguous short texts: "
             ++ sentence)
        (col_sentence examples) in
  let targets :=
    map (fun sl => create_synthetic_proposal (fst sl) (snd sl))
        (combine (col_sentence examples) (col_label examples)) in
  {| col_input_text := inputs; col_target_text := targets |}.

(** The rows of a batch given by its columns, as [zip] pairs them. *)
Definition rows_of_columns (examples : SentenceColumns) : list Sst2Example :=
  map (fun sl => {| sentence := fst sl; label := snd sl |})
      (combine (col_sentence examples) (col_label examples)).

(** ** Batches

    Consecutive batches of [batch_size] rows, the last one shorter when the
    rows do not divide evenly: the batches of a [DataLoader] without
    shuffling, and of [Dataset.map] with [batched=True].  [fuel] bounds the
    number of batches; the number of rows is enough for a batch size of 1 or
    more. *)
Fixpoint batches_from {A : Type} (fuel batch_size : nat) (ds : list A)
  : list (list A) :=
  match fuel with
  | O => []
  | S fuel' =>
      match ds with
      | [] => []
      | _ :: _ =>
          firstn batch_size ds :: batches_from fuel' batch_size (skipn batch_size ds)
      end
  end%list.

Definition batches {A : Type} (batch_size : nat) (ds : list A) : list (list A) :=
  batches_from (length ds) batch_size ds.

(** [Dataset.map(function, batched=True)] with the default batch size. *)
Definition Dataset_map {A B : Type} (function : list A -> list B) (ds : list A)
  : list B :=
  concat (map function (batches 1000 ds)).

(** [DataLoader(dataset, batch_size=..., collate_fn=data_collator)], without
    shuffling (the validation and test loaders). *)
Definition DataLoader (tokenizer : Tokenizer) (dataset : list Features)
           (batch_size : nat) : list (list Features) :=
  map (data_collator tokenizer) (batches batch_size dataset).

(** ** Cell 7: the run of all epochs

    The training loader shuffles: each epoch iterates over batches of its
    own.  [train_loaders] holds the batches of each epoch in turn, one entry
    for each of the [EPOCHS] epochs.  The shuffling loader of line 171
    cannot be built on a dataset without rows, so in a run of the notebook
    every entry holds a batch; the validation loader of line 172 does not
    shuffle and can be empty. *)
Module Run.
Section Runs.

Variable be : Backend.

Fixpoint training_run (train_loaders : list (list (Batch be)))
         (val_loader : list (Batch be)) (st : Loop.State be)
  : result (Loop.State be) :=
  match train_loaders with
  | [] => Ok st
  | train_loader :: rest =>
      st1 <-? Loop.epoch be train_loader val_loader st ;;
      training_run rest val_loader st1
  end%list.

End Runs.
End Run.

(** A backend to run the loops on: one integer parameter, the loss of a
    batch is the parameter times the batch, a step subtracts the gradient
    and counts. *)
Definition toy_backend : Backend :=
  {| Params := Z; OptState := nat; Grads := Z; Batch := Z; Float := Z;
     fzero := 0%Z;
     fadd := Z.add;
     fdiv := fun x n => (x / Z.of_nat n)%Z;
     forward := fun p _ b => (p * b)%Z;
     backward := fun _ _ b g => (g + b)%Z;
     optimizer_step := fun o p g => (S o, (p - g)%Z);
     zero_grad := fun _ => 0%Z |}.

Definition toy_state : Loop.State toy_backend :=
  Loop.Build_State toy_backend 10%Z 0%nat 0%Z true 0%Z 0%Z []%list []%list.

(** ** Cell 8: the test loop and the sample

    [model.generate] is the function [generate] of a collated batch, and
    [tokenizer.decode] with [skip_special_tokens=True] the function
    [decode] of a sequence of ids. *)
Module Evaluation.
Section Test.

Variable tokenizer : Tokenizer.
Variable generate : list Features -> list (list Z).
Variable decode : list Z -> string.

Definition batch_decode (sequences : list (list Z)) : list string :=
  map decode sequences.

(** The body of the loop, lines 258 to 267, on the pair
    [(generated, references)]. *)
Definition test_batch (acc : list string * list string) (batch : list Features)
  : list string * list string :=
  let generated_ids := generate batch in
  let decoded_preds := batch_decode generated_ids in
  let decoded_labels := batch_decode (map labels batch) in
  ((fst acc ++ decoded_preds)%list, (snd acc ++ decoded_labels)%list).

Definition test_loop (test_loader : list (list Features))
  : list string * list string :=
  fold_left test_batch test_loader ([], [])%list.

End Test.

(** Line 276: [generated[:min(100, len(generated))]]. *)
Definition sampled_preds (generated : list string) : list string :=
  firstn (Nat.min 100 (length generated)) generated.

End Evaluation.

(** Libraries for the other ways a guarded block ends: the dataset load is
    interrupted from the keyboard; the dataset lacks the column the
    preprocessing reads. *)
Definition interrupted_library : Library :=
  {| RawDataset := unit; Data := unit; SplitData := unit; TokenizerObj := unit;
     Model := unit; Tokenized := unit;
     device := "cpu";
     load_dataset := fun _ => Py.raise KeyboardInterrupt;
     repr_dataset := fun _ => "DatasetDict";
     first_row := fun _ _ => Py.ret "row";
     map_preprocess := fun _ _ => Py.ret tt;
     split_and_report := fun _ => Py.ret tt;
     tokenizer_from_pretrained := fun _ => Py.ret tt;
     model_from_pretrained := fun _ _ => Py.ret tt;
     get_peft_model := fun _ => Py.ret tt;
     map_tokenize := fun _ _ => Py.ret tt;
     training_cell := fun _ _ _ => Py.ret tt;
     evaluation_cell := fun _ _ _ => Py.ret tt |}.

Definition malformed_library : Library :=
  {| RawDataset := unit; Data := unit; SplitData := unit; TokenizerObj := unit;
     Model := unit; Tokenized := unit;
     device := "cpu";
     load_dataset := fun _ => Py.ret tt;
     repr_dataset := fun _ => "DatasetDict";
     first_row := fun _ _ => Py.ret "row";
     map_preprocess := fun _ _ => Py.raise (PyException "KeyError" "'sentence'");
     split_and_report := fun _ => Py.ret tt;
     tokenizer_from_pretrained := fun _ => Py.ret tt;
     model_from_pretrained := fun _ _ => Py.ret tt;
     get_peft_model := fun _ => Py.ret tt;
     map_tokenize := fun _ _ => Py.ret tt;
     training_cell := fun _ _ _ => Py.ret tt;
     evaluation_cell := fun _ _ _ => Py.ret tt |}.

(** A library whose dataset loads and whose model download fails. *)
Definition model_offline_library : Library :=
  {| RawDataset := unit; Data := unit; SplitData := unit; TokenizerObj := unit;
     Model := unit; Tokenized := unit;
     device := "cpu";
     load_dataset := fun _ => Py.ret tt;
     repr_dataset := fun _ => "DatasetDict";
     first_row := fun _ _ => Py.ret "row";
     map_preprocess := fun _ _ => Py.ret tt;
     split_and_report := fun _ => Py.ret tt;
     tokenizer_from_pretrained := fun _ => Py.ret tt;
     model_from_pretrained :=
       fun _ _ => Py.raise (PyException "OSError" "no such model");
     get_peft_model := fun _ => Py.ret tt;
     map_tokenize := fun _ _ => Py.ret tt;
     training_cell := fun _ _ _ => Py.ret tt;
     evaluation_cell := fun _ _ _ => Py.ret tt |}.

(** * Properties *)

(** ** Occurrences of a marker in a string *)

Module StrFacts.
Import Str.

Lemma append_assoc (a b c : string) : (a ++ b) ++ c = a ++ (b ++ c).
Proof.
  induction a as [|x a IH]; simpl; [reflexivity | now rewrite IH].
Qed.

(** A marker without the character [c] cannot reach across a [c]. *)
Lemma prefix_separator (c : ascii) (m : string) :
  lacks c m = true ->
  forall a b, prefix m (a ++ String c b) = prefix m a.
Proof.
  induction m as [|x m IH]; intros Hm a b.
  - now destruct a.
  - simpl in Hm. apply andb_prop in Hm as [Hx Hm].
    destruct a as [|y a]; simpl.
    + destruct (ascii_dec x c) as [->|_]; [|reflexivity].
      now rewrite Ascii.eqb_refl in Hx.
    + destruct (ascii_dec x y); [now apply IH | reflexivity].
Qed.

Lemma prefix_empty (m : string) : m <> "" -> prefix m "" = false.
Proof. now destruct m. Qed.

Lemma occurrences_from_separator (c : ascii) (m : string) :
  lacks c m = true -> m <> "" ->
  forall a b i,
    occurrences_from i m (a ++ String c b) =
    (occurrences_from i m a
       ++ occurrences_from (i + String.length a) m (String c b))%list.
Proof.
  intros Hc Hm a b. induction a as [|x a IH]; intros i.
  - cbn [append String.length]. rewrite Nat.add_0_r.
    cbn [occurrences_from]. now rewrite prefix_empty.
  - cbn [append String.length occurrences_from].
    change (String x (a ++ String c b)) with (String x a ++ String c b).
    rewrite (prefix_separator c m Hc), IH, <- app_assoc.
    now rewrite Nat.add_succ_r.
Qed.

Lemma occurrences_from_shift (m s : string) (i : nat) :
  occurrences_from i m s = map (Nat.add i) (occurrences_from 0 m s).
Proof.
  revert i. induction s as [|x s IH]; intros i; cbn [occurrences_from].
  - destruct (prefix m ""); simpl; now rewrite ?Nat.add_0_r.
  - rewrite map_app, (IH (S i)), (IH 1%nat), map_map.
    f_equal.
    + destruct (prefix m (String x s)); simpl; now rewrite ?Nat.add_0_r.
    + apply map_ext. intros k. lia.
Qed.

Lemma contains_occurrences (m s : string) (i : nat) :
  contains m s = false -> occurrences_from i m s = [].
Proof.
  revert i. induction s as [|x s IH]; intros i H; cbn [contains] in H;
    apply orb_false_elim in H as [Hp Hs]; cbn [occurrences_from]; rewrite Hp.
  - reflexivity.
  - now rewrite IH.
Qed.

Lemma occurrences_contains (m s : string) :
  occurrences m s = [] -> contains m s = false.
Proof.
  unfold occurrences. generalize 0%nat.
  induction s as [|x s IH]; intros i H; cbn [occurrences_from] in H;
    cbn [contains].
  - now destruct (prefix m "").
  - destruct (prefix m (String x s)); [discriminate|].
    simpl in H. now rewrite (IH _ H).
Qed.

Lemma occurrences_from_quote (m t : string) (i : nat) :
  lacks "'" m = true -> m <> "" ->
  occurrences_from i m (String "'" t) = occurrences_from (S i) m t.
Proof.
  intros Hq Hm. cbn [occurrences_from].
  replace (prefix m (String "'" t)) with false; [reflexivity|].
  destruct m as [|x m]; [easy|]. simpl in *.
  apply andb_prop in Hq as [Hx _].
  destruct (ascii_dec x "'") as [->|_]; [|reflexivity].
  now rewrite Ascii.eqb_refl in Hx.
Qed.

(** The occurrences of a marker [m], free of quotes, in a sentence put
    between quotes after [before] and ahead of [rest]. *)
Lemma occurrences_quoted (m before sentence rest : string) :
  lacks "'" m = true -> m <> "" ->
  occurrences m (before ++ String "'" (sentence ++ String "'" rest)) =
  (occurrences m before
     ++ map (Nat.add (S (String.length before))) (occurrences m sentence)
     ++ map (Nat.add (S (String.length before + String.length sentence)))
            (occurrences m (String "'" rest)))%list.
Proof.
  intros Hq Hm. unfold occurrences.
  rewrite (occurrences_from_separator "'" m Hq Hm). f_equal.
  rewrite (occurrences_from_quote m _ _ Hq Hm).
  rewrite (occurrences_from_separator "'" m Hq Hm).
  rewrite (occurrences_from_shift m sentence (S _)).
  rewrite (occurrences_from_shift m (String "'" rest) (S _ + _)).
  reflexivity.
Qed.

End StrFacts.

(** ** The template generator *)

Lemma proposal_shape (sentence : string) (label : Z) :
  create_synthetic_proposal sentence label =
  template_head ++ String "'" (sentence ++ String "'" (template_tail label)).
Proof.
  unfold create_synthetic_proposal, template_head, template_tail.
  now rewrite !StrFacts.append_assoc.
Qed.

Lemma occurrences_proposal (m sentence : string) (label : Z) :
  Str.lacks "'" m = true -> m <> "" ->
  Str.occurrences m (create_synthetic_proposal sentence label) =
  (Str.occurrences m template_head
     ++ map (Nat.add 49) (Str.occurrences m sentence)
     ++ map (Nat.add (49 + String.length sentence))
            (Str.occurrences m (String "'" (template_tail label))))%list.
Proof.
  intros Hq Hm. rewrite proposal_shape.
  now rewrite (StrFacts.occurrences_quoted m _ _ _ Hq Hm).
Qed.

Lemma occurrences_tail (label : Z) :
  Str.occurrences "Problem:" (String "'" (template_tail label)) = []
  /\ Str.occurrences "Hypothesis:" (String "'" (template_tail label)) = [2%nat]
  /\ Str.occurrences "Methodology:" (String "'" (template_tail label)) = [82%nat].
Proof.
  unfold template_tail. destruct (label =? 1)%Z; vm_compute; auto.
Qed.

Lemma occurrences_problem (sentence : string) (label : Z) :
  Str.occurrences "Problem:" (create_synthetic_proposal sentence label) =
  0%nat :: map (Nat.add 49) (Str.occurrences "Problem:" sentence).
Proof.
  rewrite occurrences_proposal by easy.
  destruct (occurrences_tail label) as (-> & _).
  replace (Str.occurrences "Problem:" template_head) with [0%nat]
    by (vm_compute; reflexivity).
  cbn [map app]. now rewrite app_nil_r.
Qed.

Lemma occurrences_hypothesis (sentence : string) (label : Z) :
  Str.occurrences "Hypothesis:" (create_synthetic_proposal sentence label) =
  (map (Nat.add 49) (Str.occurrences "Hypothesis:" sentence)
     ++ [String.length sentence + 51])%nat%list.
Proof.
  rewrite occurrences_proposal by easy.
  destruct (occurrences_tail label) as (_ & -> & _).
  replace (Str.occurrences "Hypothesis:" template_head) with (@nil nat)
    by (vm_compute; reflexivity).
  cbn [map app]. do 2 f_equal. lia.
Qed.

Lemma occurrences_methodology (sentence : string) (label : Z) :
  Str.occurrences "Methodology:" (create_synthetic_proposal sentence label) =
  (map (Nat.add 49) (Str.occurrences "Methodology:" sentence)
     ++ [String.length sentence + 131])%nat%list.
Proof.
  rewrite occurrences_proposal by easy.
  destruct (occurrences_tail label) as (_ & _ & ->).
  replace (Str.occurrences "Methodology:" template_head) with (@nil nat)
    by (vm_compute; reflexivity).
  cbn [map app]. do 2 f_equal. lia.
Qed.

(** C3: for the sentence of the end-to-end scenario and label 1 the target
    text is the three lines of the specification, with one newline
    character (code 10) after the first line and one after the second. *)
Theorem proposal_scenario :
  create_synthetic_proposal
    "a stirring, funny and finally transporting re-imagining" 1 =
  "Problem: Analyze sentiment in short texts like: 'a stirring, funny and finally transporting re-imagining'"
    ++ String "010"%char
         ("Hypothesis: The positive sentiment can be detected using contextual embeddings."
            ++ String "010"%char
                 "Methodology: Use a transformer-based model with fine-tuning on short-text datasets.").
Proof. reflexivity. Qed.

(** C2, as the claim states it, fails: a sentence that itself holds the text
    of a marker gives a target with that marker twice. *)
Lemma proposal_sections_counterexample :
  Str.occurrences "Problem:"
    (create_synthetic_proposal "Problem: too long" 0) = [0; 49]%nat
  /\ three_sections (create_synthetic_proposal "Problem: too long" 0) = false.
Proof. split; vm_compute; reflexivity. Qed.

(** C2, amended: for every sentence and label two calls give equal
    strings; and for every sentence that holds none of the three markers,
    and every label, the target holds each marker exactly once, "Problem:"
    at offset 0, then "Hypothesis:", then "Methodology:". *)
Theorem proposal_sections (sentence : string) (label : Z) :
  let out := create_synthetic_proposal sentence label in
  String.eqb out (create_synthetic_proposal sentence label) = true
  /\ (Str.contains "Problem:" sentence = false ->
      Str.contains "Hypothesis:" sentence = false ->
      Str.contains "Methodology:" sentence = false ->
      Str.occurrences "Problem:" out = [0%nat]
      /\ Str.occurrences "Hypothesis:" out = [(String.length sentence + 51)%nat]
      /\ Str.occurrences "Methodology:" out
         = [(String.length sentence + 131)%nat]
      /\ three_sections out = true).
Proof.
  intros out. split; [apply String.eqb_refl|]. intros HP HH HM.
  assert (EP : Str.occurrences "Problem:" out = [0%nat]).
  { unfold out. rewrite occurrences_problem.
    unfold Str.occurrences. now rewrite (StrFacts.contains_occurrences _ _ _ HP). }
  assert (EH : Str.occurrences "Hypothesis:" out
               = [(String.length sentence + 51)%nat]).
  { unfold out. rewrite occurrences_hypothesis.
    unfold Str.occurrences. now rewrite (StrFacts.contains_occurrences _ _ _ HH). }
  assert (EM : Str.occurrences "Methodology:" out
               = [(String.length sentence + 131)%nat]).
  { unfold out. rewrite occurrences_methodology.
    unfold Str.occurrences. now rewrite (StrFacts.contains_occurrences _ _ _ HM). }
  repeat split; trivial.
  unfold three_sections. rewrite EP, EH, EM.
  apply andb_true_intro; split; apply Nat.ltb_lt; lia.
Qed.

Lemma proposal_sections_witness :
  let out := create_synthetic_proposal "a gorgeous film" 0 in
  String.eqb out (create_synthetic_proposal "a gorgeous film" 0) = true
  /\ Str.occurrences "Problem:" out = [0%nat]
  /\ Str.occurrences "Hypothesis:" out = [66%nat]
  /\ Str.occurrences "Methodology:" out = [146%nat]
  /\ three_sections out = true.
Proof.
  destruct (proposal_sections "a gorgeous film" 0) as [He H].
  split; [exact He|]. apply H; reflexivity.
Defined.

(** The condition on the sentence cannot be dropped: a target with the
    three markers once each comes from a sentence without them. *)
Lemma proposal_sections_only_if (sentence : string) (label : Z) :
  three_sections (create_synthetic_proposal sentence label) = true ->
  Str.contains "Problem:" sentence = false
  /\ Str.contains "Hypothesis:" sentence = false
  /\ Str.contains "Methodology:" sentence = false.
Proof.
  unfold three_sections.
  rewrite occurrences_problem, occurrences_hypothesis, occurrences_methodology.
  intros H. repeat split; apply StrFacts.occurrences_contains.
  - destruct (Str.occurrences "Problem:" sentence); [reflexivity|discriminate].
  - destruct (Str.occurrences "Problem:" sentence); [|discriminate].
    destruct (Str.occurrences "Hypothesis:" sentence) as [|a [|b l]];
      [reflexivity | discriminate | discriminate].
  - destruct (Str.occurrences "Problem:" sentence); [|discriminate].
    destruct (Str.occurrences "Hypothesis:" sentence) as [|a [|b l]];
      [|discriminate|discriminate].
    destruct (Str.occurrences "Methodology:" sentence) as [|a [|b l]];
      [reflexivity | discriminate | discriminate].
Qed.

(** ** The relevance score *)

Lemma fold_add_ones {A : Type} (l : list A) (a : Z) :
  fold_left Z.add (map (fun _ => 1%Z) l) a = (a + Z.of_nat (length l))%Z.
Proof.
  revert a. induction l as [|x l IH]; intros a; cbn [map fold_left length].
  - lia.
  - rewrite IH. lia.
Qed.

Lemma relevant_count_length (generated : list string) :
  relevant_count generated =
  Z.of_nat (length (filter has_all_markers generated)).
Proof. unfold relevant_count, py_sum. now rewrite fold_add_ones. Qed.

Lemma relevant_count_bounds (generated : list string) :
  (0 <= relevant_count generated <= Z.of_nat (length generated))%Z.
Proof.
  rewrite relevant_count_length. split; [lia|].
  apply Nat2Z.inj_le. induction generated as [|p l IH]; simpl; [lia|].
  destruct (has_all_markers p); simpl; lia.
Qed.

Lemma relevance_nonempty (pred : string) (rest : list string) :
  relevance (pred :: rest) =
  Ok (inject_Z (relevant_count (pred :: rest))
      / inject_Z (Z.of_nat (length (pred :: rest))))%Q.
Proof.
  unfold relevance, true_div.
  destruct (Z.eqb_spec (Z.of_nat (length (pred :: rest))) 0) as [E|_];
    [simpl in E; lia | reflexivity].
Qed.

Lemma filter_all {A : Type} (f : A -> bool) (l : list A) :
  forallb f l = true -> filter f l = l.
Proof.
  induction l as [|x l IH]; simpl; [reflexivity|].
  intros H. apply andb_prop in H as [-> H]. now rewrite IH.
Qed.

Lemma filter_none {A : Type} (f : A -> bool) (l : list A) :
  existsb f l = false -> filter f l = [].
Proof.
  induction l as [|x l IH]; simpl; [reflexivity|].
  intros H. apply orb_false_elim in H as [-> H]. now apply IH.
Qed.




(** C10: the quotient of line 281 has no guard: on an empty list of
    predictions it raises ZeroDivisionError, and on every non-empty list it
    returns a value between 0 and 1. *)
Theorem relevance_division :
  relevance [] = Raise (ZeroDivisionError "division by zero")
  /\ forall (pred : string) (rest : list string),
      exists q : Q, relevance (pred :: rest) = Ok q /\ (0 <= q <= 1)%Q.
Proof.
  split; [reflexivity|]. intros pred rest.
  eexists. split; [apply relevance_nonempty|].
  pose proof (relevant_count_bounds (pred :: rest)) as [Hlo Hhi].
  set (c := relevant_count (pred :: rest)) in *.
  set (n := Z.of_nat (length (pred :: rest))) in *.
  assert (Hn : (0 < inject_Z n)%Q).
  { unfold Qlt. cbn [Qnum Qden inject_Z]. unfold n. simpl length. lia. }
  split.
  - apply Qle_shift_div_l; [exact Hn|].
    rewrite Qmult_0_l. unfold Qle. cbn [Qnum Qden inject_Z]. lia.
  - apply Qle_shift_div_r; [exact Hn|].
    rewrite Qmult_1_l. unfold Qle. cbn [Qnum Qden inject_Z]. lia.
Qed.

(** ** The two-stage split *)

Section SplitFacts.

Local Open Scope list_scope.

Context {Row : Type}.
Variable permutation : Z -> nat -> list nat.
Hypothesis permutation_spec :
  forall seed n, Permutation (permutation seed n) (seq 0 n).

Lemma select_in_range (l : list nat) (ds : list Row) :
  Forall (fun i => i < length ds)%nat l -> select l ds = Ok (rows_at l ds).
Proof.
  induction 1 as [|i l Hi _ IH]; [reflexivity|].
  cbn [select rows_at flat_map].
  destruct (nth_error ds i) eqn:E.
  - unfold rows_at in IH. now rewrite IH.
  - apply nth_error_None in E. lia.
Qed.

Lemma rows_at_length (l : list nat) (ds : list Row) :
  Forall (fun i => i < length ds)%nat l -> length (rows_at l ds) = length l.
Proof.
  induction 1 as [|i l Hi _ IH]; [reflexivity|].
  cbn [rows_at flat_map]. rewrite length_app. unfold rows_at in IH.
  rewrite IH. destruct (nth_error ds i) eqn:E; [reflexivity|].
  apply nth_error_None in E. lia.
Qed.

Lemma rows_at_seq (front ds : list Row) :
  rows_at (seq (length front) (length ds)) (front ++ ds) = ds.
Proof.
  revert front. induction ds as [|r ds IH]; intros front; [reflexivity|].
  cbn [length seq rows_at flat_map].
  rewrite nth_error_app2, Nat.sub_diag by lia. cbn [nth_error app].
  f_equal.
  specialize (IH (front ++ [r])).
  rewrite length_app, Nat.add_1_r, <- app_assoc in IH. exact IH.
Qed.

Lemma rows_at_all (ds : list Row) : rows_at (seq 0 (length ds)) ds = ds.
Proof. exact (rows_at_seq [] ds). Qed.

Lemma permutation_in_range (seed : Z) (n : nat) :
  Forall (fun i => i < n)%nat (permutation seed n).
Proof.
  apply Forall_forall. intros i Hi.
  apply (Permutation_in _ (permutation_spec seed n)) in Hi.
  apply in_seq in Hi. lia.
Qed.

Lemma Forall_firstn {A : Type} (P : A -> Prop) (k : nat) (l : list A) :
  Forall P l -> Forall P (firstn k l).
Proof.
  intros H. rewrite <- (firstn_skipn k l) in H.
  now apply Forall_app in H.
Qed.

Lemma Forall_skipn {A : Type} (P : A -> Prop) (k : nat) (l : list A) :
  Forall P l -> Forall P (skipn k l).
Proof.
  intros H. rewrite <- (firstn_skipn k l) in H.
  now apply Forall_app in H.
Qed.

(** One split, for a test count between 1 and the row count less 1. *)
Lemma train_test_split_spec (test_size : Q) (seed : Z) (ds : list Row) :
  (0 < test_size)%Q -> (test_size < 1)%Q ->
  let n_test :=
    Z.to_nat (Qceiling (test_size * inject_Z (Z.of_nat (length ds)))) in
  (n_test < length ds)%nat ->
  exists dd,
    train_test_split permutation test_size seed ds = Ok dd
    /\ length (dd_test dd) = n_test
    /\ length (dd_train dd) = (length ds - n_test)%nat
    /\ Permutation (dd_train dd ++ dd_test dd) ds.
Proof.
  intros Hlo Hhi n_test Hn.
  unfold train_test_split.
  destruct (Nat.eqb_spec (length ds) 0) as [E0|_]; [lia|].
  replace (Qle_bool test_size 0) with false; cycle 1.
  { symmetry. apply not_true_is_false. rewrite Qle_bool_iff.
    now apply Qlt_not_le. }
  replace (Qle_bool 1 test_size) with false; cycle 1.
  { symmetry. apply not_true_is_false. rewrite Qle_bool_iff.
    now apply Qlt_not_le. }
  cbn [orb]. fold n_test.
  destruct (Nat.eqb_spec (length ds - n_test) 0) as [E|_]; [lia|].
  set (perm := permutation seed (length ds)).
  assert (Hperm : Permutation perm (seq 0 (length ds)))
    by apply permutation_spec.
  assert (Hrange : Forall (fun i => i < length ds)%nat perm)
    by apply permutation_in_range.
  assert (Hlen : length perm = length ds).
  { rewrite (Permutation_length Hperm). apply length_seq. }
  rewrite !select_in_range
    by auto using Forall_firstn, Forall_skipn.
  cbn [rbind]. eexists. split; [reflexivity|]. cbn [dd_train dd_test].
  rewrite !rows_at_length by auto using Forall_firstn, Forall_skipn.
  rewrite !length_firstn, length_skipn, Hlen.
  split; [lia|]. split; [lia|].
  replace (firstn (length ds - n_test) (skipn n_test perm))
    with (skipn n_test perm)
    by (symmetry; apply firstn_all2; rewrite length_skipn; lia).
  assert (Hrows : Permutation
                    (rows_at (skipn n_test perm) ds
                       ++ rows_at (firstn n_test perm) ds)
                    (rows_at (seq 0 (length ds)) ds)).
  { unfold rows_at. rewrite <- flat_map_app.
    apply Permutation_flat_map.
    rewrite <- Hperm, Permutation_app_comm. now rewrite firstn_skipn. }
  now rewrite rows_at_all in Hrows.
Qed.

Lemma n_test_fifth (n : nat) :
  Z.to_nat (Qceiling (0.2 * inject_Z (Z.of_nat n))) = ((n + 4) / 5)%nat.
Proof.
  unfold Qceiling, Qfloor. cbn [Qmult Qopp Qnum Qden inject_Z].
  change (Z.pos (10 * 1)) with 10%Z.
  apply Nat2Z.inj. rewrite Nat2Z.inj_div.
  Z.to_euclidean_division_equations. lia.
Qed.

Lemma n_test_half (n : nat) :
  Z.to_nat (Qceiling (0.5 * inject_Z (Z.of_nat n))) = ((n + 1) / 2)%nat.
Proof.
  unfold Qceiling, Qfloor. cbn [Qmult Qopp Qnum Qden inject_Z].
  change (Z.pos (10 * 1)) with 10%Z.
  apply Nat2Z.inj. rewrite Nat2Z.inj_div.
  Z.to_euclidean_division_equations. lia.
Qed.

(** C4: on a corpus of at least six rows the two splits of cell 4 return
    three sets; together they are the rows of the source, each row in
    exactly one set; their sizes are within one row of 0.8, 0.1 and 0.1
    times the size of the source; and a second run on the same corpus
    returns the same three sets. *)
Theorem split_cell_partition (train_data : list Row) :
  (6 <= length train_data)%nat ->
  exists s : Splits Row,
    split_cell permutation train_data = Ok s
    /\ Permutation
         (train_dataset s ++ val_dataset s ++ test_dataset s)%list train_data
    /\ (NoDup train_data ->
        NoDup (train_dataset s ++ val_dataset s ++ test_dataset s)%list)
    /\ (let n := Z.of_nat (length train_data) in
        let size := fun l : list Row => Z.of_nat (length l) in
        8 * n - 10 < 10 * size (train_dataset s) <= 8 * n
        /\ n - 10 < 10 * size (val_dataset s) < n + 10
        /\ n - 10 < 10 * size (test_dataset s) < n + 10)%Z
    /\ (forall s' : Splits Row,
           split_cell permutation train_data = Ok s' -> s' = s).
Proof.
  intros Hn. unfold split_cell.
  destruct (train_test_split_spec 0.2 42 train_data)
    as (dd1 & -> & Ltest1 & Ltrain1 & P1); [easy | easy | |].
  { rewrite n_test_fifth.
    apply Nat.Div0.div_lt_upper_bound. lia. }
  cbn [rbind].
  rewrite n_test_fifth in Ltest1, Ltrain1.
  destruct (train_test_split_spec 0.5 42 (dd_test dd1))
    as (dd2 & -> & Ltest2 & Ltrain2 & P2); [easy | easy | |].
  { rewrite n_test_half, Ltest1.
    apply Nat.Div0.div_lt_upper_bound.
    assert (2 <= (length train_data + 4) / 5)%nat
      by (apply Nat.div_le_lower_bound; lia).
    lia. }
  cbn [rbind].
  rewrite n_test_half, Ltest1 in Ltest2, Ltrain2.
  eexists. split; [reflexivity|].
  cbn [train_dataset val_dataset test_dataset].
  assert (P : Permutation (dd_train dd1 ++ dd_train dd2 ++ dd_test dd2)
                          train_data).
  { rewrite P2. exact P1. }
  split; [exact P|]. split.
  { intros ND. apply (Permutation_NoDup (Permutation_sym P) ND). }
  split.
  { cbv zeta. rewrite Ltrain1, Ltrain2, Ltest2.
    generalize dependent (length train_data). clear. intros n Hn.
    pose proof (Nat.div_mod_eq (n + 4) 5) as E5.
    pose proof (Nat.mod_upper_bound (n + 4) 5) as B5.
    set (m := ((n + 4) / 5)%nat) in *.
    pose proof (Nat.div_mod_eq (m + 1) 2) as E2.
    pose proof (Nat.mod_upper_bound (m + 1) 2) as B2.
    set (t := ((m + 1) / 2)%nat) in *.
    clearbody t m. lia. }
  intros s' E. now inversion E.
Qed.

End SplitFacts.

Lemma split_cell_partition_witness :
  exists s : Splits nat,
    split_cell (fun _ n => rev (seq 0 n)) (seq 100 10) = Ok s
    /\ Permutation
         (train_dataset s ++ val_dataset s ++ test_dataset s)%list (seq 100 10).
Proof.
  destruct (split_cell_partition (fun _ n => rev (seq 0 n))
              (fun _ n => Permutation_sym (Permutation_rev (seq 0 n)))
              (seq 100 10))
    as (s & Hs & Hp & _); [simpl; lia|].
  exists s. split; [exact Hs | exact Hp].
Defined.

(** Below six rows the second split has no row left for its train part and
    the library raises. *)
Example split_cell_five_rows :
  split_cell (fun _ n => seq 0 n) [10; 11; 12; 13; 14]%nat
  = Raise (ValueError "the resulting train set will be empty").
Proof. reflexivity. Qed.

(** ** Tokenized targets and the loss *)

Section Collation.

Local Open Scope list_scope.
Variable tokenizer : Tokenizer.

(** With room for a piece and the end-of-sequence id, truncation keeps the
    first [max_length - 1] pieces. *)
Lemma kept_pieces {A : Type} (pieces : list A) (max_length : nat) :
  (2 <= max_length)%nat ->
  (if (0 <? length pieces + 1 - max_length)%nat
      && (length pieces + 1 - max_length <? length pieces)%nat
   then firstn (length pieces - (length pieces + 1 - max_length)) pieces
   else pieces)
  = firstn (max_length - 1) pieces.
Proof.
  intros H.
  destruct (Nat.ltb_spec 0 (length pieces + 1 - max_length)) as [Hr|Hr].
  - destruct (Nat.ltb_spec (length pieces + 1 - max_length) (length pieces))
      as [_|Hc]; [|lia].
    cbn [andb]. f_equal. lia.
  - cbn [andb]. symmetry. apply firstn_all2. lia.
Qed.

Lemma tokenizer_call_truncating (text : string) (max_length : nat) :
  (2 <= max_length)%nat ->
  tokenizer_call tokenizer text max_length
  = let ids := firstn (max_length - 1) (encode_pieces tokenizer text)
                 ++ [eos_token_id tokenizer] in
    {| input_ids :=
         ids ++ repeat (pad_token_id tokenizer) (max_length - length ids);
       attention_mask :=
         repeat 1%Z (length ids) ++ repeat 0%Z (max_length - length ids) |}.
Proof.
  intros H. unfold tokenizer_call. cbv zeta.
  now rewrite (kept_pieces _ _ H).
Qed.

Lemma tokenizer_call_length (text : string) (max_length : nat) :
  (2 <= max_length)%nat ->
  length (input_ids (tokenizer_call tokenizer text max_length)) = max_length.
Proof.
  intros H. rewrite (tokenizer_call_truncating _ _ H). cbn [input_ids].
  rewrite length_app, repeat_length, length_app, length_firstn.
  cbn [length]. lia.
Qed.

(** At a padding position the target holds the padding id. *)
Lemma padding_position_id (text : string) (max_length i : nat) :
  is_padding_position (tokenizer_call tokenizer text max_length) i = true ->
  nth_error (input_ids (tokenizer_call tokenizer text max_length)) i
  = Some (pad_token_id tokenizer).
Proof.
  unfold is_padding_position, tokenizer_call. cbn [input_ids attention_mask].
  set (ids := _ ++ [eos_token_id tokenizer]).
  set (d := (max_length - length ids)%nat).
  destruct (Nat.lt_ge_cases i (length ids)) as [Hi|Hi].
  - rewrite nth_error_app1 by (rewrite repeat_length; exact Hi).
    rewrite nth_error_repeat by exact Hi. discriminate.
  - rewrite nth_error_app2 by (rewrite repeat_length; exact Hi).
    rewrite repeat_length.
    destruct (nth_error (repeat 0%Z d) (i - length ids)) eqn:E;
      [|discriminate].
    intros _. rewrite nth_error_app2 by exact Hi.
    apply nth_error_repeat.
    assert (Hlt : (i - length ids < length (repeat 0%Z d))%nat)
      by (apply nth_error_Some; congruence).
    now rewrite repeat_length in Hlt.
Qed.

(** A target of fewer than 255 pieces has padding, up to position 255. *)
Lemma short_target_has_padding (text : string) :
  (length (encode_pieces tokenizer text) < 255)%nat ->
  is_padding_position (tokenizer_call tokenizer text 256) 255 = true.
Proof.
  intros H. unfold is_padding_position.
  rewrite tokenizer_call_truncating by lia. cbn [attention_mask].
  set (ids := firstn (256 - 1) (encode_pieces tokenizer text)
                ++ [eos_token_id tokenizer]).
  assert (Hids : (length ids <= 255)%nat).
  { unfold ids. rewrite length_app, length_firstn. cbn [length]. lia. }
  rewrite nth_error_app2 by (rewrite repeat_length; exact Hids).
  rewrite repeat_length, nth_error_repeat by lia. reflexivity.
Qed.

Lemma tokenize_function_nth (batch : list TextPair) (j : nat) (ex : TextPair) :
  nth_error batch j = Some ex ->
  exists f,
    nth_error (tokenize_function tokenizer batch) j = Some f
    /\ labels f = input_ids (tokenizer_call tokenizer (target_text ex) 256).
Proof.
  intros H. unfold tokenize_function.
  eexists. split; [apply map_nth_error; exact H | reflexivity].
Qed.

(** The targets of a batch all have 256 labels, so the collator has
    nothing to add to them. *)
Lemma data_collator_labels (batch : list TextPair) (j : nat) (ex : TextPair)
      (f : Features) :
  nth_error batch j = Some ex ->
  nth_error (data_collator tokenizer (tokenize_function tokenizer batch)) j
  = Some f ->
  labels f = input_ids (tokenizer_call tokenizer (target_text ex) 256).
Proof.
  intros Hex Hf.
  destruct (tokenize_function_nth batch j ex Hex) as (f0 & Hf0 & Hl).
  unfold data_collator in Hf.
  erewrite map_nth_error in Hf by exact Hf0.
  injection Hf as <-. cbn [labels].
  set (m := list_max _).
  assert (Hm : (m <= 256)%nat).
  { apply list_max_le, Forall_forall. intros k Hk.
    apply in_map_iff in Hk as (g & <- & Hg).
    unfold tokenize_function in Hg.
    apply in_map_iff in Hg as (ex' & <- & _). cbn [labels].
    rewrite tokenizer_call_length; lia. }
  rewrite Hl, tokenizer_call_length by lia.
  replace (m - 256)%nat with 0%nat by lia.
  apply app_nil_r.
Qed.

(** C1, on the code: in every collated batch, every padding position of a
    target carries the padding id of the tokenizer as its label; that id
    is a vocabulary index, so it differs from the ignored index and the
    position takes part in the loss. *)
Theorem target_padding_counted_in_loss
        (batch : list TextPair) (j i : nat) (ex : TextPair) (f : Features) :
  (0 <= pad_token_id tokenizer)%Z ->
  nth_error batch j = Some ex ->
  nth_error (data_collator tokenizer (tokenize_function tokenizer batch)) j
  = Some f ->
  is_padding_position (tokenizer_call tokenizer (target_text ex) 256) i = true ->
  nth_error (labels f) i = Some (pad_token_id tokenizer)
  /\ counted_in_loss (pad_token_id tokenizer) = true.
Proof.
  intros Hpad Hex Hf Hi. split.
  - rewrite (data_collator_labels batch j ex f Hex Hf).
    now apply padding_position_id.
  - unfold counted_in_loss, ignore_index.
    apply negb_true_iff, Z.eqb_neq. lia.
Qed.

End Collation.

Lemma target_padding_counted_in_loss_witness :
  let batch :=
    preprocess_data
      [{| sentence := "a gorgeous film"; label := 1 |}] in
  exists f,
    nth_error (data_collator byte_tokenizer (tokenize_function byte_tokenizer batch))
              0 = Some f
    /\ nth_error (labels f) 255 = Some 0%Z
    /\ counted_in_loss 0 = true.
Proof.
  intros batch.
  destruct (nth_error
              (data_collator byte_tokenizer
                 (tokenize_function byte_tokenizer batch)) 0) as [f|] eqn:E;
    [|vm_compute in E; discriminate].
  exists f. split; [reflexivity|].
  refine (target_padding_counted_in_loss byte_tokenizer batch 0 255 _ f _ _ E _);
    [vm_compute; discriminate | reflexivity | vm_compute; reflexivity].
Defined.

(** ** Guarded and unguarded failures *)

Section Failures.

Local Open Scope list_scope.
Import Notebook.
Variable lib : Library.

Lemma bind_ok {A B : Type} (c : Py.M A) (k : A -> Py.M B) out out' a :
  c out = (out', Ok a) -> Py.bind c k out = k a out'.
Proof. intros H. unfold Py.bind. now rewrite H. Qed.

Lemma bind_raise {A B : Type} (c : Py.M A) (k : A -> Py.M B) out out' e :
  c out = (out', Raise e) -> Py.bind c k out = (out', Raise e).
Proof. intros H. unfold Py.bind. now rewrite H. Qed.

Lemma try_caught {A : Type} (body : Py.M A) (handler : PyExc -> Py.M A)
      out out' e :
  body out = (out', Raise e) -> isinstance_Exception e = true ->
  Py.try_except_Exception body handler out = handler e out'.
Proof. intros H He. unfold Py.try_except_Exception. now rewrite H, He. Qed.

Lemma aborts_intro (c : Py.M unit) out out' e :
  c out = (out', Raise e) -> aborts c out out' e.
Proof.
  intros H. split; [exact H|]. rewrite H. cbn [snd Py.exit_status].
  destruct e; discriminate.
Qed.

(** A failed dataset load is caught, reported, and ends the run. *)
Lemma dataset_load_failure out out0 out1 e :
  upto_load_dataset lib out = (out0, Ok tt) ->
  load_dataset lib "stanfordnlp/sst2" out0 = (out1, Raise e) ->
  isinstance_Exception e = true ->
  aborts (notebook lib) out
         (out1 ++ [dataset_diagnostic e])
         (SystemExit dataset_failed).
Proof.
  intros H0 H1 He. apply aborts_intro.
  assert (E : upto_first_row lib out
              = (out1 ++ [dataset_diagnostic e],
                 Raise (SystemExit dataset_failed))).
  { unfold upto_first_row. rewrite (bind_ok _ _ _ _ _ H0).
    unfold try_load_dataset.
    erewrite try_caught; [reflexivity | | exact He].
    now apply bind_raise. }
  unfold notebook, upto_evaluation, upto_training, upto_tokenize, upto_peft,
    upto_load_model, upto_split, upto_preprocess.
  now repeat (erewrite bind_raise; [reflexivity|]).
Qed.

(** A failed tokenizer or model load is caught, reported, and ends the
    run. *)
Lemma model_load_failure out out0 out1 splits e :
  upto_load_model lib out = (out0, Ok splits) ->
  tokenizer_from_pretrained lib model_name out0 = (out1, Raise e)
  \/ (exists out' tokenizer,
         tokenizer_from_pretrained lib model_name out0 = (out', Ok tokenizer)
         /\ model_from_pretrained lib model_name (device lib) out'
            = (out1, Raise e)) ->
  isinstance_Exception e = true ->
  aborts (notebook lib) out
         (out1 ++ [model_diagnostic e])
         (SystemExit model_failed).
Proof.
  intros H0 H1 He. apply aborts_intro.
  assert (E : upto_peft lib out
              = (out1 ++ [model_diagnostic e],
                 Raise (SystemExit model_failed))).
  { unfold upto_peft. rewrite (bind_ok _ _ _ _ _ H0).
    apply bind_raise. unfold try_load_model.
    erewrite try_caught; [reflexivity | | exact He].
    destruct H1 as [H1 | (out' & tk & H1 & H2)].
    - now apply bind_raise.
    - rewrite (bind_ok _ _ _ _ _ H1). now apply bind_raise. }
  unfold notebook, upto_evaluation, upto_training, upto_tokenize.
  now repeat (erewrite bind_raise; [reflexivity|]).
Qed.

(** The guard of cell 4: a failed preprocessing is caught and reported in
    the same way. *)
Lemma preprocess_failure out out0 out1 dataset e :
  upto_preprocess lib out = (out0, Ok dataset) ->
  map_preprocess lib dataset "train" out0 = (out1, Raise e)
  \/ (exists out' train_data,
         map_preprocess lib dataset "train" out0 = (out', Ok train_data)
         /\ map_preprocess lib dataset "validation" out' = (out1, Raise e)) ->
  isinstance_Exception e = true ->
  aborts (notebook lib) out
         (out1 ++ [preprocessing_diagnostic e])
         (SystemExit preprocessing_failed).
Proof.
  intros H0 H1 He. apply aborts_intro.
  assert (E : upto_split lib out
              = (out1 ++ [preprocessing_diagnostic e],
                 Raise (SystemExit preprocessing_failed))).
  { unfold upto_split. rewrite (bind_ok _ _ _ _ _ H0).
    apply bind_raise. unfold try_preprocess.
    erewrite try_caught; [reflexivity | | exact He].
    destruct H1 as [H1 | (out' & td & H1 & H2)].
    - now apply bind_raise.
    - rewrite (bind_ok _ _ _ _ _ H1). now apply bind_raise. }
  unfold notebook, upto_evaluation, upto_training, upto_tokenize, upto_peft,
    upto_load_model.
  now repeat (erewrite bind_raise; [reflexivity|]).
Qed.

Ltac propagate H0 H1 :=
  apply aborts_intro;
  unfold notebook, upto_evaluation, upto_training, upto_tokenize, upto_peft,
    upto_load_model, upto_split, upto_preprocess;
  repeat first
    [ rewrite (bind_ok _ _ _ _ _ H0); apply bind_raise; exact H1
    | rewrite (bind_ok _ _ _ _ _ H0); exact H1
    | erewrite bind_raise; [reflexivity|] ].

(** C7: a failure of the dataset load, or of the tokenizer or model load,
    is caught; the line "Error loading dataset: ..." or "Error loading
    model/tokenizer: ...", with the text of the exception, is printed after
    what the failed call printed and is the last line of the run, which
    ends on SystemExit with its message, status 1.  A failure of a stage
    outside the three [try] blocks (the sample row, the split, the adapter,
    the tokenization, the training, the evaluation) reaches the top
    uncaught and ends the run there, with a status other than 0. *)
Theorem failure_handling (out : list string) :
  (forall out0 out1 e,
      upto_load_dataset lib out = (out0, Ok tt) ->
      load_dataset lib "stanfordnlp/sst2" out0 = (out1, Raise e) ->
      isinstance_Exception e = true ->
      notebook lib out
      = (out1 ++ [("Error loading dataset: " ++ str_exc e)%string],
         Raise (SystemExit
                  "Dataset loading failed. Please check Hugging Face access or try 'rotten_tomatoes' dataset."))
      /\ Py.exit_status (snd (notebook lib out)) = 1%Z)
  /\ (forall out0 out1 splits e,
         upto_load_model lib out = (out0, Ok splits) ->
         tokenizer_from_pretrained lib "google/flan-t5-small" out0
         = (out1, Raise e)
         \/ (exists out' tokenizer,
                tokenizer_from_pretrained lib "google/flan-t5-small" out0
                = (out', Ok tokenizer)
                /\ model_from_pretrained lib "google/flan-t5-small"
                                         (device lib) out'
                   = (out1, Raise e)) ->
         isinstance_Exception e = true ->
         notebook lib out
         = (out1 ++ [("Error loading model/tokenizer: " ++ str_exc e)%string],
            Raise (SystemExit "Model loading failed. Check Hugging Face access."))
         /\ Py.exit_status (snd (notebook lib out)) = 1%Z)
  /\ (forall out0 out1 dataset e,
         upto_first_row lib out = (out0, Ok dataset) ->
         first_row lib dataset "train" out0 = (out1, Raise e) ->
         aborts (notebook lib) out out1 e)
  /\ (forall out0 out1 train_data e,
         upto_split lib out = (out0, Ok train_data) ->
         split_and_report lib train_data out0 = (out1, Raise e) ->
         aborts (notebook lib) out out1 e)
  /\ (forall out0 out1 vars e,
         upto_peft lib out = (out0, Ok vars) ->
         get_peft_model lib (snd vars) out0 = (out1, Raise e) ->
         aborts (notebook lib) out out1 e)
  /\ (forall out0 out1 vars e,
         upto_tokenize lib out = (out0, Ok vars) ->
         map_tokenize lib (snd (fst vars)) (fst (fst vars)) out0
         = (out1, Raise e) ->
         aborts (notebook lib) out out1 e)
  /\ (forall out0 out1 vars e,
         upto_training lib out = (out0, Ok vars) ->
         training_cell lib (snd vars) (snd (fst vars)) (fst (fst vars)) out0
         = (out1, Raise e) ->
         aborts (notebook lib) out out1 e)
  /\ (forall out0 out1 vars e,
         upto_evaluation lib out = (out0, Ok vars) ->
         evaluation_cell lib (snd vars) (snd (fst vars)) (fst (fst vars)) out0
         = (out1, Raise e) ->
         aborts (notebook lib) out out1 e).
Proof.
  split.
  { intros out0 out1 e H0 H1 He.
    destruct (dataset_load_failure out out0 out1 e H0 H1 He) as [E _].
    rewrite E. split; reflexivity. }
  split.
  { intros out0 out1 splits e H0 H1 He.
    destruct (model_load_failure out out0 out1 splits e H0 H1 He) as [E _].
    rewrite E. split; reflexivity. }
  do 5 (split; [intros out0 out1 v e H0 H1; propagate H0 H1|]).
  intros out0 out1 v e H0 H1; propagate H0 H1.
Qed.

End Failures.

Lemma failure_handling_witness :
  Notebook.notebook offline_library []
  = (["Using device: cpu"; "Error loading dataset: offline"],
     Raise (SystemExit
              "Dataset loading failed. Please check Hugging Face access or try 'rotten_tomatoes' dataset."))
  /\ Notebook.notebook model_offline_library []
     = (["Using device: cpu"; "Dataset loaded: DatasetDict";
         "Sample training data: row";
         "Error loading model/tokenizer: no such model"],
        Raise (SystemExit "Model loading failed. Check Hugging Face access.")).
Proof.
  split.
  - destruct (failure_handling offline_library []) as [H _].
    apply (H ["Using device: cpu"] ["Using device: cpu"]
             (PyException "ConnectionError" "offline"));
      reflexivity.
  - destruct (failure_handling model_offline_library []) as (_ & H & _).
    apply (H ["Using device: cpu"; "Dataset loaded: DatasetDict";
              "Sample training data: row"]
             ["Using device: cpu"; "Dataset loaded: DatasetDict";
              "Sample training data: row"]
             tt (PyException "OSError" "no such model")).
    + reflexivity.
    + right. exists ["Using device: cpu"; "Dataset loaded: DatasetDict";
                     "Sample training data: row"], tt.
      split; reflexivity.
    + reflexivity.
Defined.

(** ** The validation phase *)

Section Validation.

Import Loop.
Variable be : Backend.

Lemma set_val_loss_same (st : State be) : set_val_loss be (val_loss be st) st = st.
Proof. now destruct st. Qed.

(** The validation loop leaves the state as it was, but for the running
    sum, to which the loss of each batch under the unchanged parameters
    is added. *)
Lemma validate_loop_spec (val_loader : list (Batch be)) (st : State be) :
  validate_loop be val_loader st =
  set_val_loss be
    (running_loss be (params be st) (training be st) (val_loss be st) val_loader)
    st.
Proof.
  unfold validate_loop, running_loss.
  revert st. induction val_loader as [|batch rest IH]; intros st.
  - cbn [fold_left]. now rewrite set_val_loss_same.
  - cbn [fold_left]. rewrite IH. reflexivity.
Qed.

(** C8: the validation step computes the loss with the forward pass the
    training step uses; the validation loop changes the running
    validation loss and nothing else; and over the whole phase the
    parameters, the optimizer state and the gradients stay as they were. *)
Theorem validation_frame (val_loader : list (Batch be)) (st : State be) :
  (forall batch,
      total_loss be (train_batch be st batch)
      = fadd be (total_loss be st)
             (forward be (params be st) (training be st) batch)
      /\ validate_batch be st batch
         = set_val_loss be
             (fadd be (val_loss be st)
                   (forward be (params be st) (training be st) batch))
             st)
  /\ validate_loop be val_loader st
     = set_val_loss be
         (running_loss be (params be st) (training be st) (val_loss be st)
                       val_loader)
         st
  /\ (let st' := validate_phase be val_loader st in
      params be st' = params be st
      /\ opt_state be st' = opt_state be st
      /\ grads be st' = grads be st
      /\ total_loss be st' = total_loss be st
      /\ train_losses be st' = train_losses be st
      /\ val_losses be st' = val_losses be st
      /\ val_loss be st'
         = running_loss be (params be st) false (fzero be) val_loader).
Proof.
  split; [intros batch; split; reflexivity|].
  split; [apply validate_loop_spec|].
  cbv zeta. unfold validate_phase. rewrite validate_loop_spec.
  repeat split.
Qed.

End Validation.

(** * Further properties *)

(** ** The template and the preprocessing *)

Section TemplateFacts.

Lemma string_length_append (a b : string) :
  String.length (a ++ b) = (String.length a + String.length b)%nat.
Proof.
  induction a as [|x a IH]; simpl; [reflexivity | now rewrite IH].
Qed.

Lemma append_cancel_l (a x y : string) : a ++ x = a ++ y -> x = y.
Proof.
  induction a as [|c a IH]; simpl; intros H; [exact H|].
  injection H as H. now apply IH.
Qed.

Lemma append_split (a b x y : string) :
  String.length a = String.length b -> a ++ x = b ++ y -> a = b /\ x = y.
Proof.
  revert b. induction a as [|c a IH]; intros [|d b] Hlen H;
    simpl in Hlen; try discriminate.
  - now split.
  - simpl in H. injection H as -> H. injection Hlen as Hlen.
    destruct (IH b Hlen H) as [-> ->]. now split.
Qed.

Lemma template_tail_length (label : Z) :
  String.length (template_tail label) = 164%nat.
Proof. unfold template_tail. now destruct (label =? 1)%Z. Qed.

(** The target determines the sentence and the sentiment, and nothing else
    of the label: two targets are equal exactly when the sentences are and
    the labels are both 1 or both different from 1. *)
Theorem proposal_injective (sentence1 sentence2 : string) (label1 label2 : Z) :
  create_synthetic_proposal sentence1 label1
  = create_synthetic_proposal sentence2 label2
  <-> sentence1 = sentence2 /\ (label1 =? 1)%Z = (label2 =? 1)%Z.
Proof.
  split.
  - rewrite !proposal_shape. intros H.
    apply append_cancel_l in H. injection H as H.
    assert (Hlen : String.length sentence1 = String.length sentence2).
    { apply (f_equal String.length) in H.
      rewrite !string_length_append in H. cbn [String.length] in H.
      rewrite !template_tail_length in H. lia. }
    destruct (append_split _ _ _ _ Hlen H) as [-> Ht]. split; [reflexivity|].
    injection Ht as Ht. unfold template_tail in Ht.
    destruct (label1 =? 1)%Z, (label2 =? 1)%Z; try reflexivity;
      vm_compute in Ht; discriminate.
  - intros [-> E]. unfold create_synthetic_proposal. now rewrite E.
Qed.

(** The target is the sentence and 214 characters of template. *)
Theorem proposal_length (sentence : string) (label : Z) :
  String.length (create_synthetic_proposal sentence label)
  = (String.length sentence + 214)%nat.
Proof.
  rewrite proposal_shape, string_length_append. cbn [String.length].
  rewrite string_length_append. cbn [String.length].
  rewrite template_tail_length. unfold template_head. cbn [String.length]. lia.
Qed.

(** Each marker occurs in the target once more than in the sentence. *)
Theorem marker_counts (sentence : string) (label : Z) :
  let out := create_synthetic_proposal sentence label in
  length (Str.occurrences "Problem:" out)
  = S (length (Str.occurrences "Problem:" sentence))
  /\ length (Str.occurrences "Hypothesis:" out)
     = S (length (Str.occurrences "Hypothesis:" sentence))
  /\ length (Str.occurrences "Methodology:" out)
     = S (length (Str.occurrences "Methodology:" sentence)).
Proof.
  cbv zeta.
  rewrite occurrences_problem, occurrences_hypothesis, occurrences_methodology.
  cbn [length]. rewrite !length_app, !length_map. cbn [length].
  repeat split; lia.
Qed.

Lemma occurrences_found (m s : string) :
  Str.occurrences m s <> []%list -> Str.contains m s = true.
Proof.
  intros H. destruct (Str.contains m s) eqn:E; [reflexivity|].
  exfalso. apply H. unfold Str.occurrences.
  now apply StrFacts.contains_occurrences.
Qed.

Lemma proposal_has_all_markers (sentence : string) (label : Z) :
  has_all_markers (create_synthetic_proposal sentence label) = true.
Proof.
  unfold has_all_markers.
  rewrite !occurrences_found; [reflexivity | | |].
  - rewrite occurrences_methodology. intros H.
    now apply app_eq_nil in H as [_ H].
  - rewrite occurrences_hypothesis. intros H.
    now apply app_eq_nil in H as [_ H].
  - now rewrite occurrences_problem.
Qed.

(** The targets of the preprocessing all pass the relevance test, whatever
    the sentences hold: scored as predictions, a non-empty list of targets
    has relevance 1. *)
Theorem targets_relevance (ex : Sst2Example) (rest : list Sst2Example) :
  exists q : Q,
    relevance (map target_text (preprocess_data (ex :: rest))) = Ok q
    /\ (q == 1)%Q.
Proof.
  cbn [preprocess_data map target_text].
  eexists. split; [apply relevance_nonempty|].
  rewrite relevant_count_length.
  rewrite filter_all.
  - apply Qmult_inv_r. unfold Qeq. cbn [Qnum Qden inject_Z].
    cbn [length]. lia.
  - cbn [forallb]. rewrite proposal_has_all_markers. cbn [andb].
    apply forallb_forall. intros t Ht.
    apply in_map_iff in Ht as (p & <- & Hp).
    apply in_map_iff in Hp as (e & <- & _). cbn [target_text].
    apply proposal_has_all_markers.
Qed.

(** On columns, the inputs follow the sentences and the targets stop at
    the shorter of the two columns; paired up, they are the rows the
    preprocessing gives for the zipped batch. *)
Theorem preprocess_data_columns_rows (examples : SentenceColumns) :
  let out := preprocess_data_columns examples in
  length (col_input_text out) = length (col_sentence examples)
  /\ length (col_target_text out)
     = Nat.min (length (col_sentence examples)) (length (col_label examples))
  /\ combine (col_input_text out) (col_target_text out)
     = map (fun p => (input_text p, target_text p))
           (preprocess_data (rows_of_columns examples)).
Proof.
  destruct examples as [sentences labels]. cbv zeta.
  unfold preprocess_data_columns, rows_of_columns, preprocess_data.
  cbn [col_sentence col_label col_input_text col_target_text].
  rewrite !length_map, length_combine. repeat split.
  rewrite !map_map. cbn [input_text target_text sentence label].
  revert labels. induction sentences as [|s ss IH]; intros [|l ls];
    cbn [combine map fst snd]; try reflexivity.
  now rewrite IH.
Qed.

End TemplateFacts.

(** ** Batches, the batched maps and the collator *)

Section BatchFacts.

Local Open Scope list_scope.

Lemma batches_from_concat {A : Type} (fuel k : nat) (ds : list A) :
  (1 <= k)%nat -> (length ds <= fuel)%nat ->
  concat (batches_from fuel k ds) = ds.
Proof.
  intros Hk. revert ds. induction fuel as [|fuel IH]; intros ds Hfuel.
  - destruct ds; [reflexivity | simpl in Hfuel; lia].
  - destruct ds as [|x l]; [reflexivity|].
    cbn [batches_from concat]. rewrite IH.
    + apply firstn_skipn.
    + rewrite length_skipn. cbn [length] in *. lia.
Qed.

Lemma batches_from_sizes {A : Type} (fuel k : nat) (ds : list A) :
  (1 <= k)%nat ->
  Forall (fun b => 1 <= length b <= k)%nat (batches_from fuel k ds).
Proof.
  intros Hk. revert ds. induction fuel as [|fuel IH]; intros ds.
  - constructor.
  - destruct ds as [|x l]; [constructor|].
    cbn [batches_from]. constructor; [|apply IH].
    rewrite length_firstn. simpl length. lia.
Qed.

Lemma batches_from_count {A : Type} (fuel k : nat) (ds : list A) :
  (1 <= k)%nat -> (length ds <= fuel)%nat ->
  length (batches_from fuel k ds) = ((length ds + k - 1) / k)%nat.
Proof.
  intros Hk. revert ds. induction fuel as [|fuel IH]; intros ds Hfuel.
  - destruct ds; [|simpl in Hfuel; lia]. cbn [batches_from length].
    symmetry. apply Nat.div_small. lia.
  - destruct ds as [|x l].
    + cbn [batches_from length]. symmetry. apply Nat.div_small. lia.
    + cbn [batches_from]. cbn [length]. rewrite IH
        by (rewrite length_skipn; cbn [length] in *; lia).
      rewrite length_skipn. set (n := length (x :: l)).
      assert (Hn : (1 <= n)%nat) by (unfold n; simpl; lia).
      change (S (length l)) with n. clearbody n.
      destruct (Nat.le_gt_cases k n) as [Hle|Hgt].
      * replace (n + k - 1)%nat with (n - k + k - 1 + 1 * k)%nat by lia.
        rewrite Nat.div_add by lia. lia.
      * replace (n - k)%nat with 0%nat by lia.
        rewrite (Nat.div_small (0 + k - 1) k) by lia.
        apply (Nat.div_unique _ _ _ (n - 1)); lia.
Qed.

(** The loaders of the notebook cut a dataset into consecutive batches:
    put back together the batches are the dataset, every batch has between
    1 and [batch_size] rows, and there are as many batches as the row count
    divided by the batch size, rounded up. *)
Theorem batches_partition {A : Type} (batch_size : nat) (ds : list A) :
  (1 <= batch_size)%nat ->
  concat (batches batch_size ds) = ds
  /\ Forall (fun b => 1 <= length b <= batch_size)%nat (batches batch_size ds)
  /\ length (batches batch_size ds)
     = ((length ds + batch_size - 1) / batch_size)%nat.
Proof.
  intros Hk. unfold batches. split; [|split].
  - now apply batches_from_concat.
  - now apply batches_from_sizes.
  - now apply batches_from_count.
Qed.

Lemma batches_partition_witness :
  concat (batches 8 (seq 0 20)) = seq 0 20
  /\ length (batches 8 (seq 0 20)) = 3%nat.
Proof.
  destruct (batches_partition 8 (seq 0 20)) as (H1 & _ & H3); [lia|].
  split; [exact H1 | exact H3].
Defined.

Lemma Dataset_map_rows {A B : Type} (g : A -> B) (ds : list A) :
  Dataset_map (map g) ds = map g ds.
Proof.
  unfold Dataset_map. rewrite <- concat_map. f_equal.
  unfold batches. apply batches_from_concat; lia.
Qed.

(** The batched maps of cells 4 and 6 give the rows one call on the whole
    split gives, in the same order: the cut into batches of 1000 does not
    show in the result. *)
Theorem batched_maps_whole (tokenizer : Tokenizer) :
  (forall examples : list Sst2Example,
      Dataset_map preprocess_data examples = preprocess_data examples)
  /\ (forall pairs : list TextPair,
         Dataset_map (tokenize_function tokenizer) pairs
         = tokenize_function tokenizer pairs).
Proof. split; intros ds; apply Dataset_map_rows. Qed.

Variable tokenizer : Tokenizer.

Lemma attention_mask_length (text : string) (max_length : nat) :
  (2 <= max_length)%nat ->
  length (attention_mask (tokenizer_call tokenizer text max_length)) = max_length.
Proof.
  intros H. rewrite (tokenizer_call_truncating _ _ _ H). cbn [attention_mask].
  rewrite length_app, !repeat_length, length_app, length_firstn.
  cbn [length]. lia.
Qed.

(** Every tokenized row has 128 input ids, 128 mask entries and 256
    labels, whatever the lengths of its texts. *)
Theorem tokenize_function_shapes (examples : list TextPair) :
  length (tokenize_function tokenizer examples) = length examples
  /\ Forall (fun f => length (f_input_ids f) = 128
                      /\ length (f_attention_mask f) = 128
                      /\ length (labels f) = 256)%nat
            (tokenize_function tokenizer examples).
Proof.
  unfold tokenize_function. split; [apply length_map|].
  apply Forall_forall. intros f Hf.
  apply in_map_iff in Hf as (ex & <- & _).
  cbn [f_input_ids f_attention_mask labels].
  rewrite !tokenizer_call_length, attention_mask_length by lia. auto.
Qed.


Lemma list_max_le_all (l : list nat) (n : nat) :
  (forall k, In k l -> k = n) -> (list_max l <= n)%nat.
Proof.
  intros H. apply list_max_le, Forall_forall. intros k Hk.
  rewrite (H k Hk). lia.
Qed.

(** On a batch whose rows have inputs of one length and labels of one
    length the collator changes nothing. *)
Lemma data_collator_rectangular (features : list Features) (a b : nat) :
  (forall f, In f features ->
             length (f_input_ids f) = a /\ length (labels f) = b) ->
  data_collator tokenizer features = features.
Proof.
  intros H. unfold data_collator.
  set (ml := list_max (map (fun f => length (labels f)) features)).
  set (mi := list_max (map (fun f => length (f_input_ids f)) features)).
  assert (Hml : (ml <= b)%nat).
  { apply list_max_le_all. intros k Hk.
    apply in_map_iff in Hk as (f & <- & Hf). now apply H. }
  assert (Hmi : (mi <= a)%nat).
  { apply list_max_le_all. intros k Hk.
    apply in_map_iff in Hk as (f & <- & Hf). now apply H. }
  rewrite <- (map_id features) at 2. apply map_ext_in. intros f Hf.
  destruct (H f Hf) as [Ha Hb]. rewrite Ha, Hb.
  replace (ml - b)%nat with 0%nat by lia.
  replace (mi - a)%nat with 0%nat by lia.
  cbn [repeat]. rewrite !app_nil_r. now destruct f.
Qed.

(** The rows of cell 6 are padded already: on every batch of them the
    collator of cell 7 returns the batch as it is, and adds no ignored
    label. *)
Theorem data_collator_tokenized (examples : list TextPair) :
  data_collator tokenizer (tokenize_function tokenizer examples)
  = tokenize_function tokenizer examples.
Proof.
  apply (data_collator_rectangular _ 128 256). intros f Hf.
  unfold tokenize_function in Hf.
  apply in_map_iff in Hf as (ex & <- & _). cbn [f_input_ids labels].
  rewrite !tokenizer_call_length by lia. auto.
Qed.

Lemma list_max_ge_in (l : list nat) (k : nat) :
  In k l -> (k <= list_max l)%nat.
Proof.
  intros H. assert (Hall : Forall (fun x => x <= list_max l)%nat l)
    by (apply list_max_le; lia).
  rewrite Forall_forall in Hall. now apply Hall.
Qed.

(** On any batch the collator returns rows of one input length and one
    label length, the longest of the batch; it keeps the labels a row had
    and fills the rest with the index the loss ignores. *)
Theorem data_collator_pads (features : list Features) (j : nat) (f : Features) :
  nth_error features j = Some f ->
  let max_label_length :=
    list_max (map (fun g => length (labels g)) features) in
  let max_length :=
    list_max (map (fun g => length (f_input_ids g)) features) in
  exists f',
    nth_error (data_collator tokenizer features) j = Some f'
    /\ length (f_input_ids f') = max_length
    /\ length (labels f') = max_label_length
    /\ firstn (length (labels f)) (labels f') = labels f
    /\ Forall (fun l => counted_in_loss l = false)
              (skipn (length (labels f)) (labels f')).
Proof.
  intros Hf ml mi. unfold data_collator. fold ml mi.
  eexists. split; [apply map_nth_error; exact Hf|].
  cbn [f_input_ids labels].
  assert (Hin : In f features) by (eapply nth_error_In; eauto).
  assert (Hl : (length (labels f) <= ml)%nat).
  { apply list_max_ge_in, in_map_iff. now exists f. }
  assert (Hi : (length (f_input_ids f) <= mi)%nat).
  { apply list_max_ge_in, in_map_iff. now exists f. }
  rewrite !length_app, !repeat_length.
  split; [lia|]. split; [lia|]. split.
  - rewrite firstn_app, Nat.sub_diag, firstn_all. cbn [firstn].
    apply app_nil_r.
  - rewrite skipn_app, Nat.sub_diag, skipn_all. cbn [skipn app].
    apply Forall_forall. intros l Hlin. apply repeat_spec in Hlin.
    now subst l.
Qed.

End BatchFacts.



Lemma data_collator_pads_witness :
  exists f',
    nth_error
      (data_collator byte_tokenizer
         [ {| f_input_ids := [5; 1]; f_attention_mask := [1; 1];
              labels := [7; 1] |};
           {| f_input_ids := [5; 6; 7; 1]; f_attention_mask := [1; 1; 1; 1];
              labels := [7; 8; 9; 1] |} ]%Z%list) 0 = Some f'
    /\ labels f' = [7; 1; -100; -100]%Z%list.
Proof.
  destruct (data_collator_pads byte_tokenizer
              [ {| f_input_ids := [5; 1]; f_attention_mask := [1; 1];
                   labels := [7; 1] |};
                {| f_input_ids := [5; 6; 7; 1]; f_attention_mask := [1; 1; 1; 1];
                   labels := [7; 8; 9; 1] |} ]%Z%list 0 _ eq_refl)
    as (f' & Hf' & _).
  exists f'. split; [exact Hf'|].
  vm_compute in Hf'. now injection Hf' as <-.
Defined.

(** ** The run of the epochs *)

Section RunFacts.

Local Open Scope list_scope.
Import Loop Run.
Variable be : Backend.

Lemma epochs_training_run (n : nat) (train_loader val_loader : list (Batch be))
      (st : State be) :
  epochs be n train_loader val_loader st
  = training_run be (repeat train_loader n) val_loader st.
Proof.
  revert st. induction n as [|n IH]; intros st; [reflexivity|].
  cbn [epochs repeat training_run].
  destruct (epoch be train_loader val_loader st); [apply IH | reflexivity].
Qed.

(** The training loop touches neither the mode, nor the validation sum, nor
    the recorded losses. *)
Lemma train_loop_frame (loader : list (Batch be)) (st : State be) :
  let st' := fold_left (train_batch be) loader st in
  training be st' = training be st
  /\ val_loss be st' = val_loss be st
  /\ train_losses be st' = train_losses be st
  /\ val_losses be st' = val_losses be st.
Proof.
  cbv zeta. revert st. induction loader as [|b l IH]; intros st; [easy|].
  cbn [fold_left]. destruct (IH (train_batch be st b)) as (-> & -> & -> & ->).
  easy.
Qed.

Lemma train_loop_val_loss (loader : list (Batch be)) (st : State be)
      (y : Float be) :
  fold_left (train_batch be) loader (set_val_loss be y st)
  = set_val_loss be y (fold_left (train_batch be) loader st).
Proof.
  revert st. induction loader as [|b l IH]; intros st; [reflexivity|].
  cbn [fold_left]. rewrite <- IH. reflexivity.
Qed.

Lemma epoch_ok (b : Batch be) (train_loader : list (Batch be))
      (v : Batch be) (val_loader : list (Batch be)) (st : State be) :
  exists st1 a w,
    epoch be (b :: train_loader) (v :: val_loader) st = Ok st1
    /\ train_losses be st1 = train_losses be st ++ [a]
    /\ val_losses be st1 = val_losses be st ++ [w]
    /\ training be st1 = false.
Proof.
  unfold epoch, train_phase.
  set (st2 := fold_left (train_batch be) (b :: train_loader) _).
  destruct (train_loop_frame (b :: train_loader)
              (set_total_loss be (fzero be) (set_training be true st)))
    as (Hm & Hv & Ht & Hw). fold st2 in Hm, Hv, Ht, Hw.
  cbn [length average rbind].
  unfold record_val_loss, validate_phase. rewrite validate_loop_spec.
  cbn [length average rbind].
  do 3 eexists. split; [reflexivity|].
  cbn [train_losses val_losses training set_val_loss set_training].
  rewrite Ht, Hw. cbn [train_losses val_losses set_total_loss set_training].
  auto.
Qed.

(** With an empty validation loader the first epoch runs its training
    phase to the end and then stops on the division of the summed
    validation loss by the number of validation batches. *)
Theorem training_run_empty_loader (b : Batch be) (train_loader : list (Batch be))
        (rest : list (list (Batch be))) (st : State be) :
  (exists st1, train_phase be (b :: train_loader) st = Ok st1)
  /\ training_run be ((b :: train_loader) :: rest) [] st
     = Raise (ZeroDivisionError "division by zero").
Proof. split; [eexists|]; reflexivity. Qed.

(** With non-empty loaders the run returns; each epoch has added one
    average to the training losses and one to the validation losses, after
    the ones recorded before, and the model is left in evaluation mode. *)
Theorem training_run_records (train_loaders : list (list (Batch be)))
        (val_loader : list (Batch be)) (st : State be) :
  Forall (fun train_loader => train_loader <> []) train_loaders ->
  val_loader <> [] ->
  exists st' new_train new_val,
    training_run be train_loaders val_loader st = Ok st'
    /\ train_losses be st' = train_losses be st ++ new_train
    /\ val_losses be st' = val_losses be st ++ new_val
    /\ length new_train = length train_loaders
    /\ length new_val = length train_loaders
    /\ (train_loaders <> [] -> training be st' = false).
Proof.
  intros Hall Hval. destruct val_loader as [|v vl]; [congruence|]. clear Hval.
  revert st. induction Hall as [|tl tls Htl _ IH]; intros st.
  - exists st, [], []. cbn [training_run length].
    rewrite !app_nil_r. repeat split; congruence.
  - destruct tl as [|b tl]; [congruence|].
    destruct (epoch_ok b tl v vl st) as (st1 & a & w & E & Ht & Hw & Hm).
    destruct (IH st1) as (st' & nt & nv & E' & Ht' & Hw' & Lt & Lv & Hm').
    exists st', (a :: nt), (w :: nv).
    cbn [training_run]. rewrite E. cbn [rbind]. rewrite E'.
    rewrite Ht', Hw', Ht, Hw, <- !app_assoc. cbn [app length].
    repeat split; try congruence.
    intros _. destruct tls as [|tl' tls'].
    + cbn [training_run] in E'. now injection E' as <-.
    + apply Hm'. discriminate.
Qed.

(** An epoch starts its sums afresh: the training sum, the validation sum
    and the mode the state comes with have no part in its result. *)
Theorem epoch_resets_accumulators (train_loader val_loader : list (Batch be))
        (st : State be) (x y : Float be) (mode : bool) :
  epoch be train_loader val_loader
        (set_total_loss be x (set_val_loss be y (set_training be mode st)))
  = epoch be train_loader val_loader st.
Proof.
  unfold epoch, train_phase.
  replace (set_total_loss be (fzero be)
             (set_training be true
                (set_total_loss be x
                   (set_val_loss be y (set_training be mode st)))))
    with (set_val_loss be y
            (set_total_loss be (fzero be) (set_training be true st)))
    by reflexivity.
  rewrite train_loop_val_loss.
  set (st2 := fold_left (train_batch be) train_loader _).
  cbn [total_loss set_val_loss].
  destruct (average be (total_loss be st2) (length train_loader));
    [|reflexivity].
  cbn [rbind]. reflexivity.
Qed.

(** What an epoch returns is what its training phase left, with one more
    validation loss: the average, over the validation batches, of the
    losses under the parameters the training phase ended with, in
    evaluation mode. *)
Theorem epoch_after_training (train_loader val_loader : list (Batch be))
        (st st' : State be) :
  epoch be train_loader val_loader st = Ok st' ->
  exists st1,
    train_phase be train_loader st = Ok st1
    /\ params be st' = params be st1
    /\ opt_state be st' = opt_state be st1
    /\ grads be st' = grads be st1
    /\ train_losses be st' = train_losses be st1
    /\ val_losses be st'
       = val_losses be st1
           ++ [fdiv be (running_loss be (params be st1) false (fzero be) val_loader)
                    (length val_loader)].
Proof.
  unfold epoch. destruct (train_phase be train_loader st) as [st1|e];
    [|discriminate].
  cbn [rbind]. unfold record_val_loss, validate_phase.
  rewrite validate_loop_spec.
  destruct val_loader as [|v vl]; [discriminate|].
  cbn [length average rbind]. intros H. injection H as <-.
  exists st1. repeat split.
Qed.

End RunFacts.

Lemma training_run_records_witness :
  exists st',
    Run.training_run toy_backend [[1; 2]; [2; 1]]%Z%list [3]%Z%list toy_state
    = Ok st'
    /\ length (Loop.train_losses toy_backend st') = 2%nat
    /\ length (Loop.val_losses toy_backend st') = 2%nat.
Proof.
  destruct (training_run_records toy_backend [[1; 2]; [2; 1]]%Z%list
              [3]%Z%list toy_state)
    as (st' & nt & nv & E & Ht & Hv & Lt & Lv & _).
  - repeat constructor; discriminate.
  - discriminate.
  - exists st'. split; [exact E|].
    rewrite Ht, Hv. cbn [Loop.train_losses Loop.val_losses toy_state app].
    split; [exact Lt | exact Lv].
Defined.

Lemma epoch_after_training_witness :
  exists st' st1,
    Loop.epoch toy_backend [1; 2]%Z%list [3]%Z%list toy_state = Ok st'
    /\ Loop.train_phase toy_backend [1; 2]%Z%list toy_state = Ok st1
    /\ Loop.params toy_backend st' = Loop.params toy_backend st1.
Proof.
  destruct (Loop.epoch toy_backend [1; 2]%Z%list [3]%Z%list toy_state)
    as [st'|e] eqn:E; [|vm_compute in E; discriminate].
  destruct (epoch_after_training toy_backend _ _ _ _ E) as (st1 & H1 & Hp & _).
  exists st', st1. auto.
Defined.

(** ** The test loop and the sample *)

Section TestFacts.

Local Open Scope list_scope.
Import Evaluation.
Variable tokenizer : Tokenizer.
Variable generate : list Features -> list (list Z).
Variable decode : list Z -> string.

Lemma test_loop_from (loader : list (list Features)) (acc : list string * list string) :
  fold_left (test_batch generate decode) loader acc
  = (fst acc ++ flat_map (fun batch => batch_decode decode (generate batch)) loader,
     snd acc ++ flat_map (fun batch => batch_decode decode (map labels batch)) loader).
Proof.
  revert acc. induction loader as [|b l IH]; intros [g r].
  - cbn [fold_left flat_map fst snd]. now rewrite !app_nil_r.
  - cbn [fold_left flat_map]. rewrite IH. unfold test_batch.
    cbn [fst snd]. now rewrite <- !app_assoc.
Qed.

Lemma flat_map_map_concat {A B : Type} (g : A -> B) (l : list (list A)) :
  flat_map (map g) l = map g (concat l).
Proof.
  induction l as [|x l IH]; [reflexivity|].
  cbn [flat_map concat]. now rewrite map_app, IH.
Qed.

Lemma in_batches {A : Type} (k : nat) (ds : list A) (b : list A) (x : A) :
  (1 <= k)%nat -> In b (batches k ds) -> In x b -> In x ds.
Proof.
  intros Hk Hb Hx.
  rewrite <- (batches_from_concat (length ds) k ds Hk (Nat.le_refl _)).
  apply in_concat. exists b. split; [exact Hb | exact Hx].
Qed.

Lemma DataLoader_tokenized (pairs : list TextPair) :
  DataLoader tokenizer (tokenize_function tokenizer pairs) 8
  = batches 8 (tokenize_function tokenizer pairs).
Proof.
  unfold DataLoader.
  rewrite <- (map_id (batches 8 (tokenize_function tokenizer pairs))) at 2.
  apply map_ext_in. intros b Hb.
  apply (data_collator_rectangular tokenizer b 128 256). intros f Hf.
  assert (Hin : In f (tokenize_function tokenizer pairs))
    by (apply (in_batches 8 _ b f); [lia | exact Hb | exact Hf]).
  unfold tokenize_function in Hin.
  apply in_map_iff in Hin as (ex & <- & _). cbn [f_input_ids labels].
  rewrite !tokenizer_call_length by lia. auto.
Qed.

(** The references of the test loop are the decoded targets of the test
    rows, one for each row and in the order of the rows: the batches of 8
    and the collator leave no trace in them. *)
Theorem test_loop_references (pairs : list TextPair) :
  snd (test_loop generate decode
         (DataLoader tokenizer (tokenize_function tokenizer pairs) 8))
  = map (fun p =>
           decode (input_ids (tokenizer_call tokenizer (target_text p) 256)))
        pairs.
Proof.
  unfold test_loop. rewrite test_loop_from. cbn [snd app].
  rewrite DataLoader_tokenized. unfold batch_decode.
  rewrite (flat_map_ext _ (map (fun f => decode (labels f))))
    by (intros b; apply map_map).
  rewrite flat_map_map_concat.
  unfold batches. rewrite batches_from_concat by lia.
  unfold tokenize_function. rewrite map_map. reflexivity.
Qed.

Lemma data_collator_length (features : list Features) :
  length (data_collator tokenizer features) = length features.
Proof. unfold data_collator. apply length_map. Qed.

(** When generation returns one sequence for each row of a batch, the
    predictions and the references of the test loop both have one entry
    for each row of the test set, so equal positions belong together. *)
Theorem test_loop_aligned (dataset : list Features) :
  (forall batch, length (generate batch) = length batch) ->
  let out := test_loop generate decode (DataLoader tokenizer dataset 8) in
  length (fst out) = length dataset /\ length (snd out) = length dataset.
Proof.
  intros Hgen. cbv zeta. unfold test_loop. rewrite test_loop_from.
  cbn [fst snd app]. unfold DataLoader, batch_decode.
  assert (Hsum : forall (h : list Features -> list string),
             (forall b, length (h (data_collator tokenizer b)) = length b) ->
             length (flat_map h (map (data_collator tokenizer) (batches 8 dataset)))
             = length dataset).
  { intros h Hh.
    rewrite <- (batches_from_concat (length dataset) 8 dataset) at 2 by lia.
    fold (batches 8 dataset).
    induction (batches 8 dataset) as [|b l IH]; [reflexivity|].
    cbn [map flat_map concat]. now rewrite !length_app, IH, Hh. }
  split; apply Hsum; intros b.
  - now rewrite length_map, Hgen, data_collator_length.
  - now rewrite !length_map, data_collator_length.
Qed.

End TestFacts.

Lemma test_loop_aligned_witness :
  let out :=
    Evaluation.test_loop (map f_input_ids) (fun _ => "Problem:")
      (DataLoader byte_tokenizer
         (tokenize_function byte_tokenizer
            (preprocess_data
               [ {| sentence := "good"; label := 1 |};
                 {| sentence := "bad"; label := 0 |} ]%list)) 8) in
  length (fst out) = 2%nat /\ length (snd out) = 2%nat.
Proof.
  apply (test_loop_aligned byte_tokenizer (map f_input_ids) (fun _ => "Problem:")).
  intros batch. apply length_map.
Defined.

(** The sample of the novelty score is the first 100 predictions, or all
    of them when there are fewer: the [min] of line 276 adds nothing to the
    slice. *)
Theorem sampled_preds_prefix (generated : list string) :
  Evaluation.sampled_preds generated = firstn 100 generated
  /\ length (Evaluation.sampled_preds generated)
     = Nat.min 100 (length generated)
  /\ generated = (Evaluation.sampled_preds generated ++ skipn 100 generated)%list.
Proof.
  assert (E : Evaluation.sampled_preds generated = firstn 100 generated).
  { unfold Evaluation.sampled_preds.
    destruct (Nat.le_ge_cases 100 (length generated)) as [H|H].
    - now rewrite Nat.min_l by exact H.
    - rewrite Nat.min_r by exact H.
      now rewrite firstn_all, firstn_all2 by exact H. }
  rewrite E. split; [reflexivity|]. split.
  - apply length_firstn.
  - symmetry. apply firstn_skipn.
Qed.

(** ** What the guards let through *)

Section GuardFacts.

Local Open Scope list_scope.
Import Notebook.
Variable lib : Library.

Lemma try_passed {A : Type} (body : Py.M A) (handler : PyExc -> Py.M A)
      out out' e :
  body out = (out', Raise e) -> isinstance_Exception e = false ->
  Py.try_except_Exception body handler out = (out', Raise e).
Proof. intros H He. unfold Py.try_except_Exception. now rewrite H, He. Qed.

Lemma try_exit_only {A : Type} (body : Py.M A) (line : PyExc -> string)
      (arg : string) out out' e :
  Py.try_except_Exception body
    (fun e0 => Py.print (line e0) ;;; Py.raise (SystemExit arg)) out
  = (out', Raise e) ->
  isinstance_Exception e = false.
Proof.
  unfold Py.try_except_Exception.
  destruct (body out) as [o [a|e0]]; [discriminate|].
  destruct (isinstance_Exception e0) eqn:E.
  - unfold Py.bind, Py.print, Py.raise. intros H. now injection H as _ <-.
  - intros H. now injection H as _ <-.
Qed.

(** No exception derived from [Exception] leaves a guarded block: what
    comes out of the three [try] statements is the [SystemExit] of the
    handler, or an exception that is no [Exception]. *)
Theorem guards_exit_only (out out' : list string) (e : PyExc) :
  (try_load_dataset lib out = (out', Raise e) ->
   isinstance_Exception e = false)
  /\ (forall dataset,
         try_preprocess lib dataset out = (out', Raise e) ->
         isinstance_Exception e = false)
  /\ (try_load_model lib out = (out', Raise e) ->
      isinstance_Exception e = false).
Proof.
  split; [|split]; [|intros dataset|]; apply try_exit_only.
Qed.

(** An exception that is no [Exception], such as a keyboard interrupt
    during the dataset load or the tokenizer load, passes the guard: no
    diagnostic is printed and the run ends on that exception. *)
Theorem guards_pass_interrupts (out : list string) :
  (forall out0 out1 e,
      upto_load_dataset lib out = (out0, Ok tt) ->
      load_dataset lib "stanfordnlp/sst2" out0 = (out1, Raise e) ->
      isinstance_Exception e = false ->
      aborts (notebook lib) out out1 e)
  /\ (forall out0 out1 splits e,
         upto_load_model lib out = (out0, Ok splits) ->
         tokenizer_from_pretrained lib model_name out0 = (out1, Raise e) ->
         isinstance_Exception e = false ->
         aborts (notebook lib) out out1 e).
Proof.
  split.
  - intros out0 out1 e H0 H1 He. apply aborts_intro.
    assert (E : upto_first_row lib out = (out1, Raise e)).
    { unfold upto_first_row. rewrite (bind_ok _ _ _ _ _ H0).
      unfold try_load_dataset. apply try_passed; [|exact He].
      now apply bind_raise. }
    unfold notebook, upto_evaluation, upto_training, upto_tokenize, upto_peft,
      upto_load_model, upto_split, upto_preprocess.
    now repeat (erewrite bind_raise; [reflexivity|]).
  - intros out0 out1 splits e H0 H1 He. apply aborts_intro.
    assert (E : upto_peft lib out = (out1, Raise e)).
    { unfold upto_peft. rewrite (bind_ok _ _ _ _ _ H0).
      apply bind_raise. unfold try_load_model.
      apply try_passed; [|exact He]. now apply bind_raise. }
    unfold notebook, upto_evaluation, upto_training, upto_tokenize.
    now repeat (erewrite bind_raise; [reflexivity|]).
Qed.

End GuardFacts.

Lemma guards_exit_only_witness :
  isinstance_Exception (SystemExit Notebook.dataset_failed) = false.
Proof.
  destruct (guards_exit_only offline_library []
              [Notebook.dataset_diagnostic (PyException "ConnectionError" "offline")]
              (SystemExit Notebook.dataset_failed)) as [H _].
  apply H. reflexivity.
Defined.

Lemma guards_pass_interrupts_witness :
  aborts (Notebook.notebook interrupted_library) []
         ["Using device: cpu"] KeyboardInterrupt.
Proof.
  destruct (guards_pass_interrupts interrupted_library []) as [H _].
  apply (H ["Using device: cpu"] ["Using device: cpu"] KeyboardInterrupt);
    reflexivity.
Defined.

Lemma preprocess_failure_witness :
  aborts (Notebook.notebook malformed_library) []
         ["Using device: cpu"; "Dataset loaded: DatasetDict";
          "Sample training data: row"; "Error in preprocessing: 'sentence'"]
         (SystemExit Notebook.preprocessing_failed).
Proof.
  apply (preprocess_failure malformed_library []
           ["Using device: cpu"; "Dataset loaded: DatasetDict";
            "Sample training data: row"]
           ["Using device: cpu"; "Dataset loaded: DatasetDict";
            "Sample training data: row"]
           tt (PyException "KeyError" "'sentence'")).
  - reflexivity.
  - left. reflexivity.
  - reflexivity.
Defined.

(** ** Sizes of the split *)

Section SplitSizes.

Local Open Scope list_scope.
Context {Row : Type}.
Variable permutation : Z -> nat -> list nat.
Hypothesis permutation_spec :
  forall seed n, Permutation (permutation seed n) (seq 0 n).

Lemma split_cell_sizes (train_data : list Row) :
  (6 <= length train_data)%nat ->
  exists s : Splits Row,
    split_cell permutation train_data = Ok s
    /\ length (train_dataset s)
       = (length train_data - (length train_data + 4) / 5)%nat
    /\ length (val_dataset s)
       = ((length train_data + 4) / 5
          - ((length train_data + 4) / 5 + 1) / 2)%nat
    /\ length (test_dataset s) = (((length train_data + 4) / 5 + 1) / 2)%nat.
Proof.
  intros Hn. unfold split_cell.
  destruct (train_test_split_spec permutation permutation_spec 0.2 42 train_data)
    as (dd1 & -> & Ltest1 & Ltrain1 & _); [easy | easy | |].
  { rewrite n_test_fifth. apply Nat.Div0.div_lt_upper_bound. lia. }
  cbn [rbind]. rewrite n_test_fifth in Ltest1, Ltrain1.
  destruct (train_test_split_spec permutation permutation_spec 0.5 42 (dd_test dd1))
    as (dd2 & -> & Ltest2 & Ltrain2 & _); [easy | easy | |].
  { rewrite n_test_half, Ltest1. apply Nat.Div0.div_lt_upper_bound.
    assert (2 <= (length train_data + 4) / 5)%nat
      by (apply Nat.div_le_lower_bound; lia).
    lia. }
  cbn [rbind]. rewrite n_test_half, Ltest1 in Ltest2, Ltrain2.
  eexists. split; [reflexivity|].
  cbn [train_dataset val_dataset test_dataset]. auto.
Qed.

Lemma fifth_half_bounds (n : nat) :
  (6 <= n)%nat ->
  let m := ((n + 4) / 5)%nat in
  let t := ((m + 1) / 2)%nat in
  (5 * m <= n + 4 < 5 * m + 5 /\ 2 * t <= m + 1 < 2 * t + 2 /\ 2 <= m)%nat.
Proof.
  intros Hn m t.
  pose proof (Nat.div_mod_eq (n + 4) 5) as E5.
  pose proof (Nat.mod_upper_bound (n + 4) 5) as B5.
  pose proof (Nat.div_mod_eq (m + 1) 2) as E2.
  pose proof (Nat.mod_upper_bound (m + 1) 2) as B2.
  fold m in E5. fold t in E2. clearbody t m. lia.
Qed.

(** On six rows or more the three sets have all the rows between them;
    the train set has four fifths of the rows, rounded down, the other two
    share the remaining fifth, rounded up, and the test set has as many
    rows as the validation set or one more. *)
Theorem split_cell_exact_sizes (train_data : list Row) :
  (6 <= length train_data)%nat ->
  exists s : Splits Row,
    split_cell permutation train_data = Ok s
    /\ (length (train_dataset s) + length (val_dataset s)
        + length (test_dataset s) = length train_data)%nat
    /\ (5 * length (train_dataset s) <= 4 * length train_data
        < 5 * length (train_dataset s) + 5)%nat
    /\ (length (val_dataset s) <= length (test_dataset s)
        <= length (val_dataset s) + 1)%nat.
Proof.
  intros Hn.
  destruct (split_cell_sizes train_data Hn) as (s & E & Lt & Lv & Le).
  exists s. split; [exact E|]. rewrite Lt, Lv, Le.
  pose proof (fifth_half_bounds (length train_data) Hn) as H. cbv zeta in H.
  set (m := ((length train_data + 4) / 5)%nat) in *.
  set (t := ((m + 1) / 2)%nat) in *. clearbody t m. lia.
Qed.

Lemma second_split_single (r : Row) :
  exists msg, train_test_split permutation 0.5 42 [r] = Raise (ValueError msg).
Proof. eexists. reflexivity. Qed.

Lemma split_cell_raises (train_data : list Row) :
  (1 <= length train_data <= 5)%nat ->
  exists msg, split_cell permutation train_data = Raise (ValueError msg).
Proof.
  intros [Hlo Hn]. unfold split_cell.
  destruct (Nat.le_gt_cases (length train_data) 1) as [H1|H1].
  - destruct train_data as [|r [|r' l]];
      [simpl in Hlo; lia | | simpl in H1; lia].
    eexists; reflexivity.
  - destruct (train_test_split_spec permutation permutation_spec 0.2 42 train_data)
      as (dd1 & -> & Ltest1 & _); [easy | easy | |].
    { rewrite n_test_fifth. apply Nat.Div0.div_lt_upper_bound. lia. }
    cbn [rbind]. rewrite n_test_fifth in Ltest1.
    assert (Hone : length (dd_test dd1) = 1%nat).
    { rewrite Ltest1. symmetry.
      apply Nat.div_unique with (r := (length train_data - 1)%nat); lia. }
    destruct (dd_test dd1) as [|r [|r' l]]; try discriminate.
    destruct (second_split_single r) as (msg & ->). now exists msg.
Qed.

(** On one to five rows the cell stops on the library's ValueError: one of
    the two splits would leave its train part empty.  On a corpus without
    rows neither split does anything, and the three sets are empty. *)
Theorem split_cell_small (train_data : list Row) :
  ((1 <= length train_data <= 5)%nat ->
   exists msg, split_cell permutation train_data = Raise (ValueError msg))
  /\ (train_data = [] ->
      split_cell permutation train_data
      = Ok {| train_dataset := []; val_dataset := []; test_dataset := [] |}).
Proof.
  split; [apply split_cell_raises|]. intros ->. reflexivity.
Qed.

(** Whenever the cell returns its three sets for a corpus that has rows,
    none of the three is empty. *)
Theorem split_cell_nonempty (train_data : list Row) (s : Splits Row) :
  train_data <> [] ->
  split_cell permutation train_data = Ok s ->
  train_dataset s <> [] /\ val_dataset s <> [] /\ test_dataset s <> [].
Proof.
  intros Hne E.
  assert (H1 : (1 <= length train_data)%nat)
    by (destruct train_data; [congruence | simpl; lia]).
  destruct (Nat.le_gt_cases (length train_data) 5) as [Hs|Hl].
  - destruct (split_cell_raises train_data (conj H1 Hs)) as (msg & E').
    congruence.
  - destruct (split_cell_sizes train_data Hl) as (s' & E' & Lt & Lv & Le).
    assert (s' = s) by congruence. subst s'.
    pose proof (fifth_half_bounds (length train_data) Hl) as H. cbv zeta in H.
    set (m := ((length train_data + 4) / 5)%nat) in *.
    set (t := ((m + 1) / 2)%nat) in *.
    repeat split; intros Hnil; rewrite Hnil in *; cbn [length] in *;
      clearbody t m; lia.
Qed.

End SplitSizes.

Lemma split_cell_exact_sizes_witness :
  exists s : Splits nat,
    split_cell (fun _ n => rev (seq 0 n)) (seq 100 23) = Ok s
    /\ (length (train_dataset s) + length (val_dataset s)
        + length (test_dataset s) = 23)%nat.
Proof.
  destruct (split_cell_exact_sizes (fun _ n => rev (seq 0 n))
              (fun _ n => Permutation_sym (Permutation_rev (seq 0 n)))
              (seq 100 23))
    as (s & Hs & Hsum & _); [simpl; lia|].
  exists s. split; [exact Hs | exact Hsum].
Defined.

Lemma split_cell_small_witness :
  exists msg,
    split_cell (fun _ n => rev (seq 0 n)) (seq 100 4) = Raise (ValueError msg).
Proof.
  destruct (split_cell_small (fun _ n => rev (seq 0 n))
              (fun _ n => Permutation_sym (Permutation_rev (seq 0 n)))
              (seq 100 4)) as [H _].
  apply H. simpl. lia.
Defined.

Lemma split_cell_nonempty_witness :
  exists s : Splits nat,
    split_cell (fun _ n => rev (seq 0 n)) (seq 100 6) = Ok s
    /\ val_dataset s <> []%list.
Proof.
  destruct (split_cell (fun _ n => rev (seq 0 n)) (seq 100 6)) as [s|e] eqn:E;
    [|vm_compute in E; discriminate].
  exists s. split; [reflexivity|].
  apply (split_cell_nonempty (fun _ n => rev (seq 0 n))
           (fun _ n => Permutation_sym (Permutation_rev (seq 0 n)))
           (seq 100 6) s); [discriminate | exact E].
Defined.

(** ** More on the relevance score *)

Section RelevanceFacts.

Local Open Scope list_scope.

Lemma filter_length_perm {A : Type} (f : A -> bool) (l l' : list A) :
  Permutation l l' -> length (filter f l) = length (filter f l').
Proof.
  induction 1 as [|x l l' _ IH|x y l|l l' l'' _ IH1 _ IH2];
    cbn [filter]; try congruence.
  - destruct (f x); cbn [length]; congruence.
  - destruct (f x), (f y); reflexivity.
Qed.

(** The score does not depend on the order of the predictions. *)
Theorem relevance_permutation (generated generated' : list string) :
  Permutation generated generated' ->
  relevance generated = relevance generated'.
Proof.
  intros P. unfold relevance. rewrite !relevant_count_length.
  now rewrite (filter_length_perm _ _ _ P), (Permutation_length P).
Qed.

Lemma filter_length_bound {A : Type} (f : A -> bool) (l : list A) :
  (length (filter f l) <= length l)%nat.
Proof.
  induction l as [|x l IH]; cbn [filter length]; [lia|].
  destruct (f x); cbn [length]; lia.
Qed.

Lemma filter_length_all {A : Type} (f : A -> bool) (l : list A) :
  length (filter f l) = length l -> forallb f l = true.
Proof.
  induction l as [|x l IH]; cbn [filter length forallb]; [reflexivity|].
  pose proof (filter_length_bound f l) as Hb.
  destruct (f x); cbn [length]; intros H; [apply IH; lia | lia].
Qed.

Lemma filter_length_none {A : Type} (f : A -> bool) (l : list A) :
  length (filter f l) = 0%nat -> existsb f l = false.
Proof.
  induction l as [|x l IH]; cbn [filter length existsb]; [reflexivity|].
  destruct (f x); cbn [length]; intros H; [discriminate | now apply IH].
Qed.

(** On a non-empty list the score is 1 only when every prediction holds
    the three markers, and 0 only when none does. *)
Theorem relevance_extremes (pred : string) (rest : list string) :
  exists q : Q,
    relevance (pred :: rest) = Ok q
    /\ ((q == 1)%Q <-> forallb has_all_markers (pred :: rest) = true)
    /\ ((q == 0)%Q <-> existsb has_all_markers (pred :: rest) = false).
Proof.
  eexists. split; [apply relevance_nonempty|].
  rewrite relevant_count_length.
  set (l := pred :: rest).
  set (c := Z.of_nat (length (filter has_all_markers l))).
  set (n := Z.of_nat (length l)).
  assert (Hn : ~ (inject_Z n == 0)%Q).
  { unfold Qeq. cbn [Qnum Qden inject_Z]. unfold n, l. cbn [length]. lia. }
  assert (Hc : (inject_Z n * (inject_Z c / inject_Z n) == inject_Z c)%Q)
    by now apply Qmult_div_r.
  split; split.
  - intros H. rewrite H, Qmult_1_r in Hc.
    apply (proj1 (inject_Z_injective _ _)) in Hc. apply filter_length_all.
    unfold c, n in Hc. lia.
  - intros H. unfold c. rewrite (filter_all _ _ H). fold n.
    now apply Qmult_inv_r.
  - intros H. rewrite H, Qmult_0_r in Hc.
    assert (Hz : (inject_Z 0 == inject_Z c)%Q) by exact Hc.
    apply (proj1 (inject_Z_injective 0 c)) in Hz.
    apply filter_length_none. unfold c in Hz. lia.
  - intros H. unfold c. rewrite (filter_none _ _ H). cbn [length Z.of_nat].
    unfold Qdiv. apply Qmult_0_l.
Qed.

End RelevanceFacts.

Lemma relevance_permutation_witness :
  relevance ["Problem: a Hypothesis: b Methodology: c"; "no markers"]
  = relevance ["no markers"; "Problem: a Hypothesis: b Methodology: c"].
Proof.
  apply relevance_permutation. apply perm_swap.
Defined.

Lemma relevance_extremes_witness :
  exists q : Q,
    relevance ["Problem: a Hypothesis: b"; "Methodology: c"] = Ok q
    /\ (q == 0)%Q.
Proof.
  destruct (relevance_extremes "Problem: a Hypothesis: b" ["Methodology: c"])
    as (q & Hq & _ & H0).
  exists q. split; [exact Hq|]. apply H0. reflexivity.
Defined.

Lemma proposal_injective_witness :
  create_synthetic_proposal "a gorgeous film" 0
  = create_synthetic_proposal "a gorgeous film" (-1).
Proof.
  apply (proposal_injective "a gorgeous film" "a gorgeous film" 0 (-1)).
  split; reflexivity.
Defined.

(** ** Markers inside a longer text *)

Section Embedded.

Lemma prefix_append (m s y : string) :
  prefix m s = true -> prefix m (s ++ y) = true.
Proof.
  revert s. induction m as [|c m IH]; intros [|d s]; simpl; try easy.
  - now destruct y.
  - destruct (ascii_dec c d); [apply IH | easy].
Qed.

Lemma contains_append_r (m s y : string) :
  Str.contains m s = true -> Str.contains m (s ++ y) = true.
Proof.
  induction s as [|d s IH]; cbn [Str.contains append]; intros H.
  - rewrite orb_false_r in H.
    destruct m; [|discriminate]. now destruct y.
  - apply orb_true_iff in H as [H|H].
    + change (String d (s ++ y)) with (String d s ++ y).
      now rewrite (prefix_append _ _ _ H).
    + rewrite (IH H). apply orb_true_r.
Qed.

Lemma contains_append_l (m x s : string) :
  Str.contains m s = true -> Str.contains m (x ++ s) = true.
Proof.
  intros H. induction x as [|d x IH]; [exact H|].
  cbn [append Str.contains]. rewrite IH. apply orb_true_r.
Qed.

(** The test for the markers looks nowhere else: a prediction that passes
    it still passes with any text put before it and after it. *)
Theorem has_all_markers_embedded (before pred after : string) :
  has_all_markers pred = true ->
  has_all_markers (before ++ pred ++ after) = true.
Proof.
  unfold has_all_markers. intros H.
  apply andb_prop in H as [H HM]. apply andb_prop in H as [HP HH].
  now rewrite !contains_append_l by now apply contains_append_r.
Qed.

End Embedded.

Lemma has_all_markers_embedded_witness :
  has_all_markers
    ("Sure. " ++ "Problem: a Hypothesis: b Methodology: c" ++ " The end.")
  = true.
Proof.
  apply (has_all_markers_embedded "Sure. "
           "Problem: a Hypothesis: b Methodology: c" " The end.").
  reflexivity.
Defined.
